(** * selfservice-portal

    A shallow embedding of the portal's request pipeline ([accesslog],
    [recovery], [responseRecorder]), of the Pangolin client ([GetResources],
    [CreateRule]), of the registration handler and of the server lifecycle
    ([run], [main]), followed by the properties established about them. *)

From Stdlib Require Import ZArith List String Ascii Bool Lia DecimalString DecimalPos.
From stdpp Require Import base option list strings gmap.

Local Open Scope Z_scope.
Local Set Warnings "-register-all".

(** ** Bytes, strings and machine integers *)

(** Go strings are byte sequences: [string] over [ascii] (8-bit characters). *)
Definition byte_code (c : ascii) : Z := Z.of_N (N_of_ascii c).
Definition byte_of (n : Z) : ascii := ascii_of_N (Z.to_N n).

Definition dquote : ascii := "034"%char.
Definition backslash : ascii := "092"%char.
Definition newline : string := String "010"%char EmptyString.

Definition in_range (lo hi : Z) (c : ascii) : bool :=
  (lo <=? byte_code c) && (byte_code c <=? hi).
Definition is_digit (c : ascii) : bool := in_range 48 57 c.
Definition is_lower (c : ascii) : bool := in_range 97 122 c.
Definition is_upper (c : ascii) : bool := in_range 65 90 c.

Fixpoint mem_char (c : ascii) (s : string) : bool :=
  match s with
  | EmptyString => false
  | String d r => Ascii.eqb c d || mem_char c r
  end.

Fixpoint map_string (f : ascii -> ascii) (s : string) : string :=
  match s with
  | EmptyString => EmptyString
  | String c r => String (f c) (map_string f r)
  end.

(** JSON texts are full of double quotes; [dq] lets them be written with
    apostrophes instead. *)
Definition dq (s : string) : string :=
  map_string (fun c => if Ascii.eqb c "'"%char then dquote else c) s.

(** [len(s)] *)
Definition len (s : string) : Z := Z.of_nat (String.length s).

(** Go's [int] on the build target (linux/amd64): 64 bits, two's complement. *)
Definition wrap_int (z : Z) : Z := (z + 2 ^ 63) mod 2 ^ 64 - 2 ^ 63.

(** [strconv.Itoa] *)
Definition Itoa (i : Z) : string := NilZero.string_of_int (Z.to_int i).

(** ** Errors *)

(** Go error values, by dynamic type.  The two [net/http] sentinels and the two
    [strconv] sentinels are constants; [errorString] is what [errors.New]
    builds, [wrapError] what [fmt.Errorf] builds around a [%w] operand,
    [NumError] is [*strconv.NumError]; [foreignError] stands for an error of
    any other library type (net, net/url, io, encoding/json, runtime), known
    by its text. *)
Inductive goerror : Type :=
| ErrAbortHandler
| ErrServerClosed
| ErrSyntax
| ErrRange
| errorString (s : string)
| wrapError (msg : string) (err : goerror)
| NumError (Func Num : string) (Err : goerror)
| foreignError (text : string).

Global Instance goerror_eq_dec : EqDecision goerror.
Proof. solve_decision. Defined.

Definition errors_New (text : string) : goerror := errorString text.

(** [errors.Is]: equality with the target somewhere along the [Unwrap] chain. *)
Fixpoint errors_Is (err target : goerror) : bool :=
  bool_decide (err = target)
  || match err with
     | wrapError _ e => errors_Is e target
     | NumError _ _ e => errors_Is e target
     | _ => false
     end.

(** What the model takes from the Go standard library without computing it:
    the text [strconv.Quote] gives a string, the error [json.Unmarshal]
    reports on an input it rejects, and the error (if any) that
    [http.NewRequest] reports on a URL. *)
Class GoLib := {
  strconv_Quote : string -> string;
  json_error : string -> goerror;
  url_error : string -> option goerror
}.

Section Errors.
Context `{GoLib}.

(** The [Error()] method. *)
Fixpoint Error (err : goerror) : string :=
  match err with
  | ErrAbortHandler => "net/http: abort Handler"
  | ErrServerClosed => "http: Server closed"
  | ErrSyntax => "invalid syntax"
  | ErrRange => "value out of range"
  | errorString s => s
  | wrapError msg _ => msg
  | NumError f n e =>
      "strconv." +:+ f +:+ ": parsing " +:+ strconv_Quote n +:+ ": " +:+ Error e
  | foreignError text => text
  end.

(** [fmt.Errorf(prefix + "%w", err)] *)
Definition fmt_Errorf_w (prefix : string) (err : goerror) : goerror :=
  wrapError (prefix +:+ Error err) err.

End Errors.

(** ** strconv.Atoi *)

(** [strconv.ParseUint(s, 10, 64)] on the digits that follow the sign, with
    the accumulator [n]: a byte that is no digit is a syntax error, and the
    first digit that takes the value past [2^64 - 1] a range error. *)
Fixpoint ParseUint (s : string) (n : Z) : Z + goerror :=
  match s with
  | EmptyString => inl n
  | String c r =>
      if is_digit c then
        if (2 ^ 64 - 1) / 10 + 1 <=? n then inr ErrRange
        else
          let n1 := n * 10 + (byte_code c - 48) in
          if 2 ^ 64 - 1 <? n1 then inr ErrRange else ParseUint r n1
      else inr ErrSyntax
  end.

(** [strconv.ParseInt(s, 10, 64)]: an optional sign, then at least one decimal
    digit, the value within 64 bits; the error is the sentinel that the
    [*NumError] carries. *)
Definition ParseInt (s : string) : Z + goerror :=
  match s with
  | EmptyString => inr ErrSyntax
  | String c r =>
      let neg := Ascii.eqb c "-"%char in
      let digits := if neg || Ascii.eqb c "+"%char then r else s in
      match digits with
      | EmptyString => inr ErrSyntax
      | _ =>
          match ParseUint digits 0 with
          | inr e => inr e
          | inl un =>
              if negb neg && (2 ^ 63 <=? un) then inr ErrRange
              else if neg && (2 ^ 63 <? un) then inr ErrRange
              else inl (if neg then - un else un)
          end
      end
  end.

(** [strconv.Atoi]: [ParseInt] in base 10 at the width of [int], the error
    naming [Atoi] and the input. *)
Definition Atoi (s : string) : Z + goerror :=
  match ParseInt s with
  | inl n => inl n
  | inr e => inr (NumError "Atoi" s e)
  end.

(** ** net/http: headers, requests, responses *)

(** [http.Header], a [map[string][]string] under canonical keys. *)
Abbreviation http_Header := (gmap string (list string)).

(** The bytes [textproto] accepts in a header field name. *)
Definition validHeaderFieldByte (c : ascii) : bool :=
  is_digit c || is_lower c || is_upper c || mem_char c "!#$%&'*+-.^_`|~".

Fixpoint canonical_from (upper : bool) (s : string) : string :=
  match s with
  | EmptyString => EmptyString
  | String c r =>
      let c' :=
        if upper && is_lower c then byte_of (byte_code c - 32)
        else if negb upper && is_upper c then byte_of (byte_code c + 32)
        else c in
      String c' (canonical_from (Ascii.eqb c' "-"%char) r)
  end.

Fixpoint all_bytes (f : ascii -> bool) (s : string) : bool :=
  match s with
  | EmptyString => true
  | String c r => f c && all_bytes f r
  end.

(** [http.CanonicalHeaderKey]: a name made of field bytes gets an upper-case
    letter first and after each dash and lower-case letters elsewhere; any
    other string is returned as it is. *)
Definition CanonicalHeaderKey (s : string) : string :=
  if all_bytes validHeaderFieldByte s then canonical_from true s else s.

Definition Header_Get (h : http_Header) (key : string) : string :=
  match h !! CanonicalHeaderKey key with
  | Some (v :: _) => v
  | _ => EmptyString
  end.

Definition Header_Set (key value : string) (h : http_Header) : http_Header :=
  <[CanonicalHeaderKey key := [value]]> h.

Definition Header_Add (key value : string) (h : http_Header) : http_Header :=
  <[CanonicalHeaderKey key := default [] (h !! CanonicalHeaderKey key) ++ [value]]> h.

Definition Header_Del (key : string) (h : http_Header) : http_Header :=
  delete (CanonicalHeaderKey key) h.

(** An inbound [*http.Request], with the parts the program reads:
    [r.Method], [r.URL.Path], [r.URL.RawQuery], [r.Header], [r.RemoteAddr],
    the wildcards behind [r.PathValue] and the body. *)
Record http_Request := {
  Method : string;
  URL_Path : string;
  URL_RawQuery : string;
  Header : http_Header;
  RemoteAddr : string;
  PathValues : gmap string string;
  Body : string
}.

Definition PathValue (r : http_Request) (name : string) : string :=
  default EmptyString (PathValues r !! name).

(** An outbound request as [http.NewRequest] builds it and the transport
    receives it. *)
Record ClientRequest := {
  creq_Method : string;
  creq_URL : string;
  creq_Header : http_Header;
  creq_Body : option string
}.

(** [*http.Response]: [res.Body] is a reader, here the bytes it delivers and
    the error, if any, that ends the reading. *)
Record http_Response := {
  StatusCode : Z;
  Status : string;
  res_Body : string * option goerror
}.

(** [io.ReadAll] *)
Definition io_ReadAll (body : string * option goerror) : string + goerror :=
  match snd body with
  | Some err => inr err
  | None => inl (fst body)
  end.

(** The upstream service, seen through [http.Client.Do]. *)
Class Upstream := {
  http_Client_Do : ClientRequest -> http_Response + goerror
}.

(** [http.NewRequest]; the methods used here are valid, so only the URL can
    be refused. *)
Definition http_NewRequest `{GoLib} (method url : string) (body : option string)
  : ClientRequest + goerror :=
  match url_error url with
  | Some err => inr err
  | None => inl {| creq_Method := method; creq_URL := url;
                   creq_Header := ∅; creq_Body := body |}
  end.

(** ** Panics and log records *)

(** The value a handler panics with: an [error], a string or an integer. *)
Inductive panicval : Type :=
| PanicError (err : goerror)
| PanicString (s : string)
| PanicInt (i : Z).

(** [fmt.Sprint] of a recovered value. *)
Definition fmt_Sprint `{GoLib} (v : panicval) : string :=
  match v with
  | PanicError err => Error err
  | PanicString s => s
  | PanicInt i => Itoa i
  end.

Inductive Level := LevelInfo | LevelError.

(** Attribute values of a [slog] record.  The measured latency and the
    captured stack depend on the clock and on the runtime; they are kept as
    symbols. *)
Inductive slog_Value : Type :=
| StringValue (s : string)
| IntValue (i : Z)
| AnyValue (v : panicval)
| LatencyValue
| StackValue.

Record LogRecord := {
  log_level : Level;
  log_msg : string;
  log_attrs : list (string * slog_Value)
}.

(** What a request can change besides its response: the log output and the
    requests sent upstream. *)
Record World := {
  logs : list LogRecord;
  sent : list ClientRequest
}.

Definition slog (lvl : Level) (msg : string) (attrs : list (string * slog_Value))
  (st : World) : World :=
  {| logs := logs st ++ [{| log_level := lvl; log_msg := msg; log_attrs := attrs |}];
     sent := sent st |}.

(** ** http.ResponseWriter and the response recorder *)

(** The [http.ResponseWriter] interface.  [Header()] hands out the writer's
    own map, so reading it and changing it both go through the writer. *)
Class http_ResponseWriter (W : Type) := {
  Header_of : W -> http_Header;
  Header_update : (http_Header -> http_Header) -> W -> W;
  Write : string -> W -> W * (Z * option goerror);
  WriteHeader : Z -> W -> W
}.

(** The server's own writer, observed from outside: the header map and the
    method calls that reached it, in order.  [sink_reply] is what the
    connection answers to a [Write]. *)
Inductive SinkCall : Type :=
| CallWriteHeader (statusCode : Z)
| CallWrite (b : string).

Record Sink := {
  sink_Header : http_Header;
  sink_calls : list SinkCall;
  sink_reply : list SinkCall -> string -> Z * option goerror
}.

Global Instance Sink_ResponseWriter : http_ResponseWriter Sink := {
  Header_of s := sink_Header s;
  Header_update f s :=
    {| sink_Header := f (sink_Header s); sink_calls := sink_calls s;
       sink_reply := sink_reply s |};
  Write b s :=
    ({| sink_Header := sink_Header s; sink_calls := sink_calls s ++ [CallWrite b];
        sink_reply := sink_reply s |},
     sink_reply s (sink_calls s) b);
  WriteHeader statusCode s :=
    {| sink_Header := sink_Header s;
       sink_calls := sink_calls s ++ [CallWriteHeader statusCode];
       sink_reply := sink_reply s |}
}.

(** [responseRecorder]: the embedded writer, the recorded status and the
    number of bytes written. *)
Record responseRecorder (W : Type) := {
  ResponseWriter : W;
  status : Z;
  numBytes : Z
}.
Arguments ResponseWriter {W} _.
Arguments status {W} _.
Arguments numBytes {W} _.

(** [Header], [Write] and [WriteHeader] of [*responseRecorder]. *)
Global Instance responseRecorder_ResponseWriter (W : Type) `{http_ResponseWriter W}
  : http_ResponseWriter (responseRecorder W) := {
  Header_of re := Header_of (ResponseWriter re);
  Header_update f re :=
    {| ResponseWriter := Header_update f (ResponseWriter re);
       status := status re; numBytes := numBytes re |};
  Write b re :=
    let n := wrap_int (numBytes re + len b) in
    let '(w, ret) := Write b (ResponseWriter re) in
    ({| ResponseWriter := w; status := status re; numBytes := n |}, ret);
  WriteHeader statusCode re :=
    {| ResponseWriter := WriteHeader statusCode (ResponseWriter re);
       status := statusCode; numBytes := numBytes re |}
}.

(** [http.Error]: drop [Content-Length], set the two headers, write the
    status, then the text and a line feed in one [Write]. *)
Definition http_Error {W : Type} `{http_ResponseWriter W}
  (w : W) (error : string) (code : Z) : W :=
  let w := Header_update (Header_Del "Content-Length") w in
  let w := Header_update (Header_Set "Content-Type" "text/plain; charset=utf-8") w in
  let w := Header_update (Header_Set "X-Content-Type-Options" "nosniff") w in
  let w := WriteHeader code w in
  fst (Write (error +:+ newline) w).

Definition StatusInternalServerError : Z := 500.

(** ** Handlers *)

(** How a call of [ServeHTTP] ends: it returns, or it panics with a value. *)
Inductive Outcome : Type :=
| Returned
| Panicked (v : panicval).

(** [http.Handler]: [ServeHTTP(w, r)] works on whatever writer it is given. *)
Definition http_Handler : Type :=
  forall (W : Type), http_ResponseWriter W ->
    W -> http_Request -> World -> Outcome * W * World.

(** The behaviour of a route handler, as the calls it makes on its writer and
    on the rest of the world, ending in a return or a panic. *)
Inductive prog : Type :=
| Return_
| Panic (v : panicval)
| ReadHeader (next : http_Header -> prog)
| ChangeHeader (f : http_Header -> http_Header) (next : prog)
| CallWriteHeaderThen (statusCode : Z) (next : prog)
| CallWriteThen (b : string) (next : Z * option goerror -> prog)
| Effect (A : Type) (f : World -> A * World) (next : A -> prog).

Fixpoint exec (p : prog) (W : Type) `{http_ResponseWriter W} (w : W) (st : World)
  : Outcome * W * World :=
  match p with
  | Return_ => (Returned, w, st)
  | Panic v => (Panicked v, w, st)
  | ReadHeader next => exec (next (Header_of w)) W w st
  | ChangeHeader f next => exec next W (Header_update f w) st
  | CallWriteHeaderThen statusCode next => exec next W (WriteHeader statusCode w) st
  | CallWriteThen b next => let '(w', ret) := Write b w in exec (next ret) W w' st
  | Effect _ f next => let '(a, st') := f st in exec (next a) W w st'
  end.

(** The handler that behaves as [h r] on request [r]. *)
Definition serve (h : http_Request -> prog) : http_Handler :=
  fun W _ w r st => exec (h r) W w st.

(** ** The middleware of [route] *)

Section Middleware.
Context `{GoLib}.

(** [accesslog]: run [next] on a fresh recorder, then log one record.  A
    panic of [next] leaves the function before the log call. *)
Definition accesslog (next : http_Handler) : http_Handler :=
  fun W _ w r st =>
    let wr := {| ResponseWriter := w; status := 0; numBytes := 0 |} in
    let '(out, wr, st) := next (responseRecorder W) _ wr r st in
    match out with
    | Panicked v => (Panicked v, ResponseWriter wr, st)
    | Returned =>
        (Returned, ResponseWriter wr,
         slog LevelInfo "accessed"
           [("latency", LatencyValue);
            ("method", StringValue (Method r));
            ("path", StringValue (URL_Path r));
            ("query", StringValue (URL_RawQuery r));
            ("ip", StringValue (Header_Get (Header r) "X-Real-IP"));
            ("status", IntValue (status wr));
            ("bytes", IntValue (numBytes wr))] st)
    end.

(** The test [err.(error)] followed by [errors.Is(err, http.ErrAbortHandler)]. *)
Definition is_abort (v : panicval) : bool :=
  match v with
  | PanicError err => errors_Is err ErrAbortHandler
  | _ => false
  end.

(** [recovery]: run [next] on a fresh recorder; the deferred function turns a
    panic into a return.  An abort is dropped silently; any other panic is
    logged, and answered with [http.Error] on the original writer unless the
    recorder holds a positive status. *)
Definition recovery (next : http_Handler) : http_Handler :=
  fun W _ w r st =>
    let wr := {| ResponseWriter := w; status := 0; numBytes := 0 |} in
    let '(out, wr, st) := next (responseRecorder W) _ wr r st in
    let w := ResponseWriter wr in
    match out with
    | Returned => (Returned, w, st)
    | Panicked err =>
        if is_abort err then (Returned, w, st)
        else
          let st :=
            slog LevelError "panic!"
              [("error", AnyValue err);
               ("stack", StackValue);
               ("method", StringValue (Method r));
               ("path", StringValue (URL_Path r));
               ("query", StringValue (URL_RawQuery r));
               ("ip", StringValue (RemoteAddr r))] st in
          if 0 <? status wr then (Returned, w, st)
          else (Returned, http_Error w (fmt_Sprint err) StatusInternalServerError, st)
    end.

(** The tail of [route]: the mux wrapped in [accesslog], that in [recovery]. *)
Definition route (mux : http_Handler) : http_Handler :=
  let handler := accesslog mux in
  let handler := recovery handler in
  handler.

End Middleware.

(** ** encoding/json *)

(** *** UTF-8 *)

Definition is_cont (b : Z) : bool := (128 <=? b) && (b <=? 191).

(** The width of the UTF-8 sequence that starts with byte [b0] and goes on
    with [rest], as [utf8.DecodeRune] accepts it; [0] when there is none
    (the decoder then yields [RuneError] and advances by one byte). *)
Definition utf8_width (b0 : Z) (rest : list Z) : nat :=
  if b0 <? 128 then 1%nat
  else if (194 <=? b0) && (b0 <=? 223) then
    match rest with
    | b1 :: _ => if is_cont b1 then 2%nat else 0%nat
    | _ => 0%nat
    end
  else if (224 <=? b0) && (b0 <=? 239) then
    match rest with
    | b1 :: b2 :: _ =>
        let lo := if b0 =? 224 then 160 else 128 in
        let hi := if b0 =? 237 then 159 else 191 in
        if (lo <=? b1) && (b1 <=? hi) && is_cont b2 then 3%nat else 0%nat
    | _ => 0%nat
    end
  else if (240 <=? b0) && (b0 <=? 244) then
    match rest with
    | b1 :: b2 :: b3 :: _ =>
        let lo := if b0 =? 240 then 144 else 128 in
        let hi := if b0 =? 244 then 143 else 191 in
        if (lo <=? b1) && (b1 <=? hi) && is_cont b2 && is_cont b3 then 4%nat else 0%nat
    | _ => 0%nat
    end
  else 0%nat.

Definition string_of_codes (l : list Z) : string :=
  string_of_list_ascii (map byte_of l).

(** [utf8.EncodeRune] *)
Definition utf8_encode (cp : Z) : string :=
  string_of_codes
    (if cp <? 128 then [cp]
     else if cp <? 2048 then [192 + cp / 64; 128 + cp mod 64]
     else if cp <? 65536 then
       [224 + cp / 4096; 128 + (cp / 64) mod 64; 128 + cp mod 64]
     else
       [240 + cp / 262144; 128 + (cp / 4096) mod 64; 128 + (cp / 64) mod 64;
        128 + cp mod 64]).

(** U+FFFD, what invalid input decodes to. *)
Definition replacement : string := utf8_encode 65533.

Fixpoint first_codes (n : nat) (s : string) : list Z :=
  match n, s with
  | S k, String c r => byte_code c :: first_codes k r
  | _, _ => []
  end.

(** *** Values and tokens *)

(** A JSON value; a number keeps its literal, as the decoder converts it only
    when it knows the Go type it is for. *)
Inductive json : Type :=
| JNull
| JBool (b : bool)
| JNumber (lit : string)
| JString (s : string)
| JArray (elems : list json)
| JObject (fields : list (string * json)).

Inductive jtoken : Type :=
| TLBrace | TRBrace | TLBracket | TRBracket | TColon | TComma
| TString (s : string)
| TNumber (lit : string)
| TTrue | TFalse | TNull.

(** The pieces of a string literal: a byte of the source, or the 16-bit unit
    of a [\u] escape. *)
Inductive stritem : Type :=
| RawByte (c : ascii)
| Escaped16 (u : Z).

Fixpoint first_raw (n : nat) (items : list stritem) : list Z :=
  match n, items with
  | S k, RawByte c :: r => byte_code c :: first_raw k r
  | _, _ => []
  end.

Definition is_surrogate (u : Z) : bool := (55296 <=? u) && (u <? 57344).

(** The pair of [\u] units that encodes a code point above U+FFFF. *)
Definition surrogate_pair (u1 u2 : Z) : option Z :=
  if (55296 <=? u1) && (u1 <? 56320) && (56320 <=? u2) && (u2 <? 57344)
  then Some (65536 + (u1 - 55296) * 1024 + (u2 - 56320))
  else None.

(** The decoder's [unquote]: invalid UTF-8 and lone surrogates become U+FFFD.
    [pending] counts the continuation bytes of a sequence already accepted. *)
Fixpoint unquote (pending : nat) (items : list stritem) : string :=
  match items with
  | [] => EmptyString
  | RawByte c :: r =>
      match pending with
      | S k => String c (unquote k r)
      | O =>
          match utf8_width (byte_code c) (first_raw 3 r) with
          | O => replacement +:+ unquote 0 r
          | S k => String c (unquote k r)
          end
      end
  | Escaped16 u :: r =>
      if is_surrogate u then
        match r with
        | Escaped16 u2 :: r' =>
            match surrogate_pair u u2 with
            | Some cp => utf8_encode cp +:+ unquote 0 r'
            | None => replacement +:+ unquote 0 r
            end
        | _ => replacement +:+ unquote 0 r
        end
      else utf8_encode u +:+ unquote 0 r
  end.

(** *** The scanner *)

Definition is_space (c : ascii) : bool := mem_char c (string_of_codes [32; 9; 13; 10]).

Definition hex_val (c : ascii) : option Z :=
  if is_digit c then Some (byte_code c - 48)
  else if in_range 97 102 c then Some (byte_code c - 87)
  else if in_range 65 70 c then Some (byte_code c - 55)
  else None.

Fixpoint skip_digits (s : string) : string :=
  match s with
  | String c r => if is_digit c then skip_digits r else s
  | EmptyString => s
  end.

Definition valid_exponent (s : string) : bool :=
  match s with
  | EmptyString => true
  | String e r =>
      mem_char e "eE"
      && let r := match r with
                  | String sg r' => if mem_char sg "+-" then r' else r
                  | EmptyString => r
                  end in
         match r with
         | String d r' => is_digit d && String.eqb (skip_digits r') EmptyString
         | EmptyString => false
         end
  end.

Definition valid_fraction (s : string) : bool :=
  match s with
  | String "."%char (String d r) => is_digit d && valid_exponent (skip_digits r)
  | String "."%char EmptyString => false
  | _ => valid_exponent s
  end.

(** The grammar of a JSON number: an optional minus, [0] or a digit from 1 to
    9 followed by digits, an optional fraction, an optional exponent. *)
Definition valid_number (s : string) : bool :=
  let s := match s with
           | String "-"%char r => r
           | _ => s
           end in
  match s with
  | String "0"%char r => valid_fraction r
  | String c r => in_range 49 57 c && valid_fraction (skip_digits r)
  | EmptyString => false
  end.

Inductive lexmode : Type :=
| LTop
| LWord (acc : list ascii)
| LNumber (acc : list ascii)
| LString (acc : list stritem)
| LEscape (acc : list stritem)
| LUnicode (acc : list stritem) (digits : list Z).

Definition close_word (acc : list ascii) : option jtoken :=
  let w := string_of_list_ascii (rev acc) in
  if String.eqb w "true" then Some TTrue
  else if String.eqb w "false" then Some TFalse
  else if String.eqb w "null" then Some TNull
  else None.

Definition close_number (acc : list ascii) : option jtoken :=
  let lit := string_of_list_ascii (rev acc) in
  if valid_number lit then Some (TNumber lit) else None.

Definition lex_top (c : ascii) : option (lexmode * list jtoken) :=
  if is_space c then Some (LTop, [])
  else if Ascii.eqb c "{"%char then Some (LTop, [TLBrace])
  else if Ascii.eqb c "}"%char then Some (LTop, [TRBrace])
  else if Ascii.eqb c "["%char then Some (LTop, [TLBracket])
  else if Ascii.eqb c "]"%char then Some (LTop, [TRBracket])
  else if Ascii.eqb c ":"%char then Some (LTop, [TColon])
  else if Ascii.eqb c ","%char then Some (LTop, [TComma])
  else if Ascii.eqb c dquote then Some (LString [], [])
  else if is_digit c || Ascii.eqb c "-"%char then Some (LNumber [c], [])
  else if is_lower c then Some (LWord [c], [])
  else None.

Definition escape_byte (c : ascii) : option ascii :=
  if Ascii.eqb c dquote || Ascii.eqb c backslash || Ascii.eqb c "/"%char then Some c
  else if Ascii.eqb c "b"%char then Some (byte_of 8)
  else if Ascii.eqb c "f"%char then Some (byte_of 12)
  else if Ascii.eqb c "n"%char then Some (byte_of 10)
  else if Ascii.eqb c "r"%char then Some (byte_of 13)
  else if Ascii.eqb c "t"%char then Some (byte_of 9)
  else None.

(** One byte of input: the next mode and the tokens completed by it.  A word
    or a number ends at the first byte that cannot continue it, and that byte
    is then read at top level. *)
Definition lex_step (m : lexmode) (c : ascii) : option (lexmode * list jtoken) :=
  match m with
  | LTop => lex_top c
  | LWord acc =>
      if is_lower c then Some (LWord (c :: acc), [])
      else
        tok ← close_word acc;
        '(m', ts) ← lex_top c;
        Some (m', tok :: ts)
  | LNumber acc =>
      if is_digit c || mem_char c "+-.eE" then Some (LNumber (c :: acc), [])
      else
        tok ← close_number acc;
        '(m', ts) ← lex_top c;
        Some (m', tok :: ts)
  | LString acc =>
      if Ascii.eqb c dquote then Some (LTop, [TString (unquote 0 (rev acc))])
      else if Ascii.eqb c backslash then Some (LEscape acc, [])
      else if byte_code c <? 32 then None
      else Some (LString (RawByte c :: acc), [])
  | LEscape acc =>
      match escape_byte c with
      | Some e => Some (LString (RawByte e :: acc), [])
      | None => if Ascii.eqb c "u"%char then Some (LUnicode acc [], []) else None
      end
  | LUnicode acc digits =>
      d ← hex_val c;
      match digits with
      | [d1; d2; d3] =>
          Some (LString (Escaped16 (((d1 * 16 + d2) * 16 + d3) * 16 + d) :: acc), [])
      | _ => Some (LUnicode acc (digits ++ [d]), [])
      end
  end.

Fixpoint lex (m : lexmode) (s : string) : option (list jtoken) :=
  match s with
  | EmptyString =>
      match m with
      | LTop => Some []
      | LWord acc => tok ← close_word acc; Some [tok]
      | LNumber acc => tok ← close_number acc; Some [tok]
      | _ => None
      end
  | String c r =>
      '(m', ts) ← lex_step m c;
      rest ← lex m' r;
      Some (ts ++ rest)
  end.

(** *** The parser *)

(** An open container: an array with its elements so far, an object with its
    members so far, or an object whose next member has its key. *)
Inductive frame : Type :=
| FArray (acc : list json)
| FObject (acc : list (string * json))
| FMember (acc : list (string * json)) (key : string).

Inductive pstate : Type :=
| PValue          (* a value must start *)
| PArrayStart     (* after [: a value or ] *)
| PObjectStart    (* after {: a key or } *)
| PKey            (* after a comma in an object: a key *)
| PColon          (* after a key *)
| PAfterValue     (* after a value in a container: a comma or the closer *)
| PDone (v : json).

(** The scanner refuses nesting deeper than this. *)
Definition maxNestingDepth : Z := 10000.

(** A finished value goes to the innermost open container. *)
Definition push_value (v : json) (stack : list frame) : option (pstate * list frame) :=
  match stack with
  | [] => Some (PDone v, [])
  | FArray acc :: st => Some (PAfterValue, FArray (v :: acc) :: st)
  | FMember acc key :: st => Some (PAfterValue, FObject ((key, v) :: acc) :: st)
  | FObject _ :: _ => None
  end.

Definition open_frame (f : frame) (p : pstate) (stack : list frame)
  : option (pstate * list frame) :=
  if maxNestingDepth <? Z.of_nat (length (f :: stack)) then None else Some (p, f :: stack).

Definition start_value (t : jtoken) (stack : list frame) : option (pstate * list frame) :=
  match t with
  | TLBracket => open_frame (FArray []) PArrayStart stack
  | TLBrace => open_frame (FObject []) PObjectStart stack
  | TString s => push_value (JString s) stack
  | TNumber lit => push_value (JNumber lit) stack
  | TTrue => push_value (JBool true) stack
  | TFalse => push_value (JBool false) stack
  | TNull => push_value JNull stack
  | _ => None
  end.

Definition parse_step (p : pstate) (stack : list frame) (t : jtoken)
  : option (pstate * list frame) :=
  match p, t, stack with
  | PValue, _, _ => start_value t stack
  | PArrayStart, TRBracket, FArray acc :: st => push_value (JArray (rev acc)) st
  | PArrayStart, _, _ => start_value t stack
  | PObjectStart, TRBrace, FObject acc :: st => push_value (JObject (rev acc)) st
  | PObjectStart, TString key, FObject acc :: st => Some (PColon, FMember acc key :: st)
  | PKey, TString key, FObject acc :: st => Some (PColon, FMember acc key :: st)
  | PColon, TColon, _ => Some (PValue, stack)
  | PAfterValue, TComma, FArray _ :: _ => Some (PValue, stack)
  | PAfterValue, TRBracket, FArray acc :: st => push_value (JArray (rev acc)) st
  | PAfterValue, TComma, FObject _ :: _ => Some (PKey, stack)
  | PAfterValue, TRBrace, FObject acc :: st => push_value (JObject (rev acc)) st
  | _, _, _ => None
  end.

Fixpoint parse_tokens (p : pstate) (stack : list frame) (ts : list jtoken) : option json :=
  match ts with
  | [] => match p with
          | PDone v => Some v
          | _ => None
          end
  | t :: rest =>
      '(p', stack') ← parse_step p stack t;
      parse_tokens p' stack' rest
  end.

(** The whole input must be one JSON value, white space around it allowed. *)
Definition json_parse (data : string) : option json :=
  ts ← lex LTop data;
  parse_tokens PValue [] ts.

(** *** The encoder *)

Definition hex_digit (n : Z) : ascii :=
  if n <? 10 then byte_of (48 + n) else byte_of (87 + n).

(** One byte below 0x80 inside a string, with HTML escaping on (the default
    of [json.Marshal]). *)
Definition encode_ascii (c : ascii) : string :=
  let b := byte_code c in
  if Ascii.eqb c backslash || Ascii.eqb c dquote then String backslash (String c EmptyString)
  else if b =? 8 then "\b"
  else if b =? 12 then "\f"
  else if b =? 10 then "\n"
  else if b =? 13 then "\r"
  else if b =? 9 then "\t"
  else if (b <? 32) || mem_char c "<>&" then
    "\u00" +:+ String (hex_digit (b / 16)) (String (hex_digit (b mod 16)) EmptyString)
  else String c EmptyString.

(** The body of a string literal.  [copy] bytes continue a sequence already
    accepted; [skip] bytes belong to a rune already written as an escape. *)
Fixpoint encode_bytes (copy skip : nat) (s : string) : string :=
  match s with
  | EmptyString => EmptyString
  | String c r =>
      match skip, copy with
      | S k, _ => encode_bytes 0 k r
      | O, S k => String c (encode_bytes k 0 r)
      | O, O =>
          let b := byte_code c in
          if b <? 128 then encode_ascii c +:+ encode_bytes 0 0 r
          else
            match utf8_width b (first_codes 3 r) with
            | O => String backslash "ufffd" +:+ encode_bytes 0 0 r
            | S k =>
                match b, first_codes 2 r with
                | 226, [128; 168] => String backslash "u2028" +:+ encode_bytes 0 k r
                | 226, [128; 169] => String backslash "u2029" +:+ encode_bytes 0 k r
                | _, _ => String c (encode_bytes k 0 r)
                end
            end
      end
  end.

Definition encode_string (s : string) : string :=
  String dquote (encode_bytes 0 0 s +:+ String dquote EmptyString).

Definition join_comma (l : list string) : string :=
  match l with
  | [] => EmptyString
  | x :: r => fold_left (fun acc y => acc +:+ "," +:+ y) r x
  end.

(** The compact text of a value, as the encoder writes it. *)
Fixpoint json_text (v : json) : string :=
  match v with
  | JNull => "null"
  | JBool true => "true"
  | JBool false => "false"
  | JNumber lit => lit
  | JString s => encode_string s
  | JArray elems => "[" +:+ join_comma (map json_text elems) +:+ "]"
  | JObject fields =>
      "{" +:+ join_comma (map (fun kv => encode_string (fst kv) +:+ ":" +:+ json_text (snd kv))
                              fields) +:+ "}"
  end.

(** *** The decoder *)

(** Decoding stores into an existing Go value: a decoder takes the JSON value
    and the current content and gives the new content, or nothing when the
    JSON value does not fit the Go type.  [null] leaves a [bool], a [string],
    an [int] or a struct as it is and clears a pointer or a slice. *)
Definition decoder (T : Type) : Type := json -> T -> option T.

Definition decode_bool : decoder bool :=
  fun v old =>
    match v with
    | JNull => Some old
    | JBool b => Some b
    | _ => None
    end.

Definition decode_string : decoder string :=
  fun v old =>
    match v with
    | JNull => Some old
    | JString s => Some s
    | _ => None
    end.

(** An [int] takes a number whose literal [strconv.ParseInt] accepts. *)
Definition decode_int : decoder Z :=
  fun v old =>
    match v with
    | JNull => Some old
    | JNumber lit =>
        match ParseInt lit with
        | inl n => Some n
        | inr _ => None
        end
    | _ => None
    end.

Definition decode_ptr {T : Type} (zero : T) (dec : decoder T) : decoder (option T) :=
  fun v old =>
    match v with
    | JNull => Some None
    | _ => Some <$> dec v (default zero old)
    end.

(** Element [i] of the array is decoded into element [i] of the slice when
    the slice has one, and into a zero value otherwise. *)
Fixpoint decode_elems {T : Type} (zero : T) (dec : decoder T)
  (elems : list json) (old : list T) : option (list T) :=
  match elems with
  | [] => Some []
  | e :: r =>
      x ← dec e (hd zero old);
      xs ← decode_elems zero dec r (tl old);
      Some (x :: xs)
  end.

Definition decode_slice {T : Type} (zero : T) (dec : decoder T) : decoder (list T) :=
  fun v old =>
    match v with
    | JNull => Some []
    | JArray elems => decode_elems zero dec elems old
    | _ => None
    end.

(** The decoder's key folding, as far as a match with an ASCII field name
    goes: ASCII letters in upper case, and the two runes outside ASCII whose
    case folding reaches an ASCII letter, U+017F and U+212A, as [S] and [K]. *)
Fixpoint foldName (s : string) : string :=
  match s with
  | EmptyString => EmptyString
  | String c r =>
      let plain := String (if is_lower c then byte_of (byte_code c - 32) else c) (foldName r) in
      match r with
      | String c2 r2 =>
          if (byte_code c =? 197) && (byte_code c2 =? 191) then String "S"%char (foldName r2)
          else
            match r2 with
            | String c3 r3 =>
                if (byte_code c =? 226) && (byte_code c2 =? 132) && (byte_code c3 =? 170)
                then String "K"%char (foldName r3)
                else plain
            | EmptyString => plain
            end
      | EmptyString => plain
      end
  end.

(** A struct field as the decoder sees it: its JSON name and the way a member
    value updates the struct. *)
Definition field (T : Type) : Type := (string * decoder T)%type.

(** The field for a key: the one of that exact name, else the one whose name
    folds to the same string. *)
Definition find_field {T : Type} (fields : list (field T)) (key : string)
  : option (decoder T) :=
  match List.find (fun f => String.eqb (fst f) key) fields with
  | Some f => Some (snd f)
  | None =>
      snd <$> List.find (fun f => String.eqb (foldName (fst f)) (foldName key)) fields
  end.

(** Members are stored in the order of the text; a key with no field is
    skipped. *)
Definition decode_struct {T : Type} (fields : list (field T)) : decoder T :=
  fun v old =>
    match v with
    | JNull => Some old
    | JObject members =>
        fold_left
          (fun acc kv =>
             s ← acc;
             match find_field fields (fst kv) with
             | Some dec => dec (snd kv) s
             | None => Some s
             end)
          members (Some old)
    | _ => None
    end.

(** [json.Unmarshal(data, &v)] for a [v] that holds [zero]. *)
Definition json_Unmarshal `{GoLib} {T : Type} (dec : decoder T) (data : string) (zero : T)
  : T + goerror :=
  match json_parse data with
  | None => inr (json_error data)
  | Some v =>
      match dec v zero with
      | None => inr (json_error data)
      | Some x => inl x
      end
  end.

(** ** Package pangolin *)

(** [Pangolin]; the [http.Client] it holds is the [Upstream] in scope. *)
Record Pangolin := {
  token : string;
  host : string;
  org : string
}.

Definition InitPangolin (token host org : string) : Pangolin :=
  {| token := token; host := host; org := org |}.

(** [PangolinResource]: every field a pointer, [None] for [nil]. *)
Record PangolinResource := {
  resource_ResourceID : option Z;
  resource_Name : option string;
  resource_Enabled : option bool;
  resource_FullDomain : option string
}.

Record PangolinRule := {
  RuleID : option Z;
  ResourceID : option Z;
  Enabled : option bool;
  Priority : option Z;
  Action : option string;
  Match : option string;
  Value : option string
}.

Record PangolinResources := {
  Resources : list PangolinResource
}.

(** [PangolinResponse[T]], the envelope of every upstream answer. *)
Record PangolinResponse (T : Type) := {
  resp_Data : T;
  resp_Success : bool;
  resp_Error : bool;
  resp_Message : string;
  resp_Status : Z
}.
Arguments resp_Data {T} _.
Arguments resp_Success {T} _.
Arguments resp_Error {T} _.
Arguments resp_Message {T} _.
Arguments resp_Status {T} _.

(** The zero values [var resp PangolinResponse[T]] starts from. *)
Definition zero_PangolinResource : PangolinResource :=
  {| resource_ResourceID := None; resource_Name := None;
     resource_Enabled := None; resource_FullDomain := None |}.

Definition zero_PangolinRule : PangolinRule :=
  {| RuleID := None; ResourceID := None; Enabled := None; Priority := None;
     Action := None; Match := None; Value := None |}.

Definition zero_PangolinResources : PangolinResources := {| Resources := [] |}.

Definition zero_PangolinResponse {T : Type} (zero : T) : PangolinResponse T :=
  {| resp_Data := zero; resp_Success := false; resp_Error := false;
     resp_Message := EmptyString; resp_Status := 0 |}.

(** The decoders that the [json] tags of the structs describe. *)
Definition decode_PangolinResource : decoder PangolinResource :=
  decode_struct
    [("resourceId", fun v (x : PangolinResource) =>
        y ← decode_ptr 0 decode_int v (resource_ResourceID x);
        Some {| resource_ResourceID := y; resource_Name := resource_Name x;
                resource_Enabled := resource_Enabled x;
                resource_FullDomain := resource_FullDomain x |});
     ("name", fun v x =>
        y ← decode_ptr EmptyString decode_string v (resource_Name x);
        Some {| resource_ResourceID := resource_ResourceID x; resource_Name := y;
                resource_Enabled := resource_Enabled x;
                resource_FullDomain := resource_FullDomain x |});
     ("enabled", fun v x =>
        y ← decode_ptr false decode_bool v (resource_Enabled x);
        Some {| resource_ResourceID := resource_ResourceID x;
                resource_Name := resource_Name x; resource_Enabled := y;
                resource_FullDomain := resource_FullDomain x |});
     ("fullDomain", fun v x =>
        y ← decode_ptr EmptyString decode_string v (resource_FullDomain x);
        Some {| resource_ResourceID := resource_ResourceID x;
                resource_Name := resource_Name x;
                resource_Enabled := resource_Enabled x; resource_FullDomain := y |})].

Definition decode_PangolinResources : decoder PangolinResources :=
  decode_struct
    [("resources", fun v (x : PangolinResources) =>
        y ← decode_slice zero_PangolinResource decode_PangolinResource v (Resources x);
        Some {| Resources := y |})].

Definition decode_PangolinRule : decoder PangolinRule :=
  decode_struct
    [("ruleId", fun v (x : PangolinRule) =>
        y ← decode_ptr 0 decode_int v (RuleID x);
        Some {| RuleID := y; ResourceID := ResourceID x; Enabled := Enabled x;
                Priority := Priority x; Action := Action x; Match := Match x;
                Value := Value x |});
     ("resourceId", fun v x =>
        y ← decode_ptr 0 decode_int v (ResourceID x);
        Some {| RuleID := RuleID x; ResourceID := y; Enabled := Enabled x;
                Priority := Priority x; Action := Action x; Match := Match x;
                Value := Value x |});
     ("enabled", fun v x =>
        y ← decode_ptr false decode_bool v (Enabled x);
        Some {| RuleID := RuleID x; ResourceID := ResourceID x; Enabled := y;
                Priority := Priority x; Action := Action x; Match := Match x;
                Value := Value x |});
     ("priority", fun v x =>
        y ← decode_ptr 0 decode_int v (Priority x);
        Some {| RuleID := RuleID x; ResourceID := ResourceID x; Enabled := Enabled x;
                Priority := y; Action := Action x; Match := Match x;
                Value := Value x |});
     ("action", fun v x =>
        y ← decode_ptr EmptyString decode_string v (Action x);
        Some {| RuleID := RuleID x; ResourceID := ResourceID x; Enabled := Enabled x;
                Priority := Priority x; Action := y; Match := Match x;
                Value := Value x |});
     ("match", fun v x =>
        y ← decode_ptr EmptyString decode_string v (Match x);
        Some {| RuleID := RuleID x; ResourceID := ResourceID x; Enabled := Enabled x;
                Priority := Priority x; Action := Action x; Match := y;
                Value := Value x |});
     ("value", fun v x =>
        y ← decode_ptr EmptyString decode_string v (Value x);
        Some {| RuleID := RuleID x; ResourceID := ResourceID x; Enabled := Enabled x;
                Priority := Priority x; Action := Action x; Match := Match x;
                Value := y |})].

Definition decode_PangolinResponse {T : Type} (dec : decoder T)
  : decoder (PangolinResponse T) :=
  decode_struct
    [("data", fun v (x : PangolinResponse T) =>
        y ← dec v (resp_Data x);
        Some {| resp_Data := y; resp_Success := resp_Success x;
                resp_Error := resp_Error x; resp_Message := resp_Message x;
                resp_Status := resp_Status x |});
     ("success", fun v x =>
        y ← decode_bool v (resp_Success x);
        Some {| resp_Data := resp_Data x; resp_Success := y;
                resp_Error := resp_Error x; resp_Message := resp_Message x;
                resp_Status := resp_Status x |});
     ("error", fun v x =>
        y ← decode_bool v (resp_Error x);
        Some {| resp_Data := resp_Data x; resp_Success := resp_Success x;
                resp_Error := y; resp_Message := resp_Message x;
                resp_Status := resp_Status x |});
     ("message", fun v x =>
        y ← decode_string v (resp_Message x);
        Some {| resp_Data := resp_Data x; resp_Success := resp_Success x;
                resp_Error := resp_Error x; resp_Message := y;
                resp_Status := resp_Status x |});
     ("status", fun v x =>
        y ← decode_int v (resp_Status x);
        Some {| resp_Data := resp_Data x; resp_Success := resp_Success x;
                resp_Error := resp_Error x; resp_Message := resp_Message x;
                resp_Status := y |})].

(** A pointer field tagged [omitempty]: no member at all when it is [nil]. *)
Definition omitempty {T : Type} (name : string) (enc : T -> json) (p : option T)
  : list (string * json) :=
  match p with
  | None => []
  | Some x => [(name, enc x)]
  end.

Definition JInt (i : Z) : json := JNumber (Itoa i).

(** The JSON object [json.Marshal] builds for a [PangolinRule], fields in
    declaration order. *)
Definition PangolinRule_json (rule : PangolinRule) : json :=
  JObject
    (omitempty "ruleId" JInt (RuleID rule)
     ++ omitempty "resourceId" JInt (ResourceID rule)
     ++ omitempty "enabled" JBool (Enabled rule)
     ++ omitempty "priority" JInt (Priority rule)
     ++ omitempty "action" JString (Action rule)
     ++ omitempty "match" JString (Match rule)
     ++ omitempty "value" JString (Value rule)).

(** [json.Marshal(rule)]; it has no way to fail on this struct. *)
Definition json_Marshal_PangolinRule (rule : PangolinRule) : string + goerror :=
  inl (json_text (PangolinRule_json rule)).

(** Calls thread the [World] and stop at the first error. *)
Definition M (A : Type) : Type := World -> (A + goerror) * World.

Definition M_ret {A : Type} (a : A) : M A := fun st => (inl a, st).
Definition M_fail {A : Type} (err : goerror) : M A := fun st => (inr err, st).
Definition M_lift {A : Type} (r : A + goerror) : M A := fun st => (r, st).
Definition M_bind {A B : Type} (m : M A) (k : A -> M B) : M B :=
  fun st =>
    match m st with
    | (inl a, st') => k a st'
    | (inr err, st') => (inr err, st')
    end.

Notation "'let*' x ':=' m 'in' k" := (M_bind m (fun x => k))
  (at level 10, x name, m at level 100, k at level 200, only parsing).

Definition MethodGet : string := "GET".
Definition MethodPut : string := "PUT".

Section Client.
Context `{GoLib} `{Upstream}.

Definition baseURL (p : Pangolin) : string := host p +:+ "/v1".

(** [request]: add the two headers, hand the request to the HTTP client. *)
Definition request (p : Pangolin) (req : ClientRequest) : M http_Response :=
  fun st =>
    let header := Header_Add "Authorization" ("Bearer " +:+ token p) (creq_Header req) in
    let header := Header_Add "Content-Type" "application/json" header in
    let req := {| creq_Method := creq_Method req; creq_URL := creq_URL req;
                  creq_Header := header; creq_Body := creq_Body req |} in
    (http_Client_Do req, {| logs := logs st; sent := sent st ++ [req] |}).

Definition GetResources (p : Pangolin) : M PangolinResources :=
  let url := baseURL p +:+ "/org/" +:+ org p +:+ "/resources" in
  let* req := M_lift (http_NewRequest MethodGet url None) in
  let* res := request p req in
  if negb (StatusCode res =? 200) then
    M_fail (errors_New ("error status code: " +:+ Status res))
  else
    let* body := M_lift (io_ReadAll (res_Body res)) in
    let* resp := M_lift (json_Unmarshal (decode_PangolinResponse decode_PangolinResources)
                      body (zero_PangolinResponse zero_PangolinResources)) in
    M_ret (resp_Data resp).

Definition CreateRule (p : Pangolin) (rule : PangolinRule) (resourceID : Z) : M PangolinRule :=
  let url := baseURL p +:+ "/resource/" +:+ Itoa resourceID +:+ "/rule" in
  let* reqBody := M_lift (json_Marshal_PangolinRule rule) in
  let* req := M_lift (http_NewRequest MethodPut url (Some reqBody)) in
  let* res := request p req in
  let* body := M_lift (io_ReadAll (res_Body res)) in
  let* resp := M_lift (json_Unmarshal (decode_PangolinResponse decode_PangolinRule)
                    body (zero_PangolinResponse zero_PangolinRule)) in
  if resp_Error resp then M_fail (errors_New ("error: " +:+ resp_Message resp))
  else M_ret (resp_Data resp).

End Client.

(** ** The registration handler *)

Section Handlers.
Context `{GoLib} `{Upstream}.

(** [handleRegisterIP]: the rule is built from the request's [X-Real-IP]
    header, the resource from the path; the upstream answer decides between
    the text [Success] and an error response. *)
Definition handleRegisterIP (pangolinClient : Pangolin) : http_Handler :=
  fun W _ w r st =>
    let pangolinRule :=
      {| RuleID := None; ResourceID := None;
         Enabled := Some true;
         Priority := Some 10;
         Action := Some "ACCEPT";
         Match := Some "IP";
         Value := Some (Header_Get (Header r) "X-Real-IP") |} in
    match Atoi (PathValue r "id") with
    | inr err => (Returned, http_Error w (Error err) StatusInternalServerError, st)
    | inl resourceID =>
        match CreateRule pangolinClient pangolinRule resourceID st with
        | (inr err, st) =>
            (Returned, http_Error w (Error err) StatusInternalServerError, st)
        | (inl _, st) => (Returned, fst (Write ("Success" +:+ newline) w), st)
        end
    end.

End Handlers.

(** ** The lifecycle: [run] and [main] *)

(** What the [select] of [run] can be woken by: [ListenAndServe] returning in
    the serving goroutine, or the signal context being done. *)
Inductive Trigger : Type :=
| ServeReturns (err : option goerror)
| SignalArrives.

(** How [run] ends: it returns an error or [nil], or it stays in the [select]. *)
Inductive RunResult : Type :=
| Blocks
| Returns (err : option goerror).

Definition is_signal (t : Trigger) : bool :=
  match t with
  | SignalArrives => true
  | ServeReturns _ => false
  end.

(** The case of the [select] that fires, for the triggers in the order they
    occur: the error the goroutine put on [errChan], or [ctx.Done()].  The
    goroutine sends only an error that is neither [nil] nor
    [http.ErrServerClosed], and it ends when [ListenAndServe] has returned. *)
Definition select_case (events : list Trigger) : option (goerror + unit) :=
  match events with
  | [] => None
  | SignalArrives :: _ => Some (inr tt)
  | ServeReturns err :: rest =>
      match err with
      | Some e =>
          if bool_decide (e = ErrServerClosed)
          then (if existsb is_signal rest then Some (inr tt) else None)
          else Some (inl e)
      | None => if existsb is_signal rest then Some (inr tt) else None
      end
  end.

Section Lifecycle.
Context `{GoLib}.

(** [run]: read the configuration, start serving, wait in the [select].
    [events] and [shutdown] say what happens while it waits: the triggers in
    order, and what [server.Shutdown] returns.  The result comes with the
    records logged. *)
Definition run (lookupEnv os_LookupEnv : string -> option string) (version : string)
  (events : list Trigger) (shutdown : option goerror) : RunResult * list LogRecord :=
  match lookupEnv "PORT" with
  | None => (Returns (Some (errors_New "failed to find env PORT")), [])
  | Some portEnv =>
  match Atoi portEnv with
  | inr err => (Returns (Some err), [])
  | inl port =>
  match os_LookupEnv "PANGOLIN_TOKEN" with
  | None => (Returns (Some (errors_New "failed to find env PANGOLIN_TOKEN")), [])
  | Some token =>
  match os_LookupEnv "PANGOLIN_HOST" with
  | None => (Returns (Some (errors_New "failed to find env PANGOLIN_HOST")), [])
  | Some host =>
  match os_LookupEnv "PANGOLIN_ORG" with
  | None => (Returns (Some (errors_New "failed to find env PANGOLIN_ORG")), [])
  | Some org =>
      let started :=
        {| log_level := LevelInfo; log_msg := "server started";
           log_attrs := [("port", IntValue (port mod 2 ^ 64));
                         ("version", StringValue version)] |} in
      match select_case events with
      | None => (Blocks, [started])
      | Some (inl err) => (Returns (Some err), [started])
      | Some (inr _) =>
          let stopping :=
            {| log_level := LevelInfo; log_msg := "shutting down server";
               log_attrs := [] |} in
          match shutdown with
          | Some err =>
              (Returns (Some (fmt_Errorf_w "server shutdown: " err)), [started; stopping])
          | None => (Returns None, [started; stopping])
          end
      end
  end end end end end.

(** [main]: what the process writes to standard error and its exit code, or
    nothing when [run] never returns. *)
Definition main (environ : string -> option string) (Version : string)
  (events : list Trigger) (shutdown : option goerror) : option (string * Z) :=
  match fst (run environ environ Version events shutdown) with
  | Blocks => None
  | Returns (Some err) => Some (Error err +:+ newline, 1)
  | Returns None => Some (EmptyString, 0)
  end.

End Lifecycle.

(** ** The other handlers *)

(** [http.NotFound] *)
Definition StatusNotFound : Z := 404.
Definition StatusOK : Z := 200.

Definition http_NotFound {W : Type} `{http_ResponseWriter W} (w : W) : W :=
  http_Error w "404 page not found" StatusNotFound.

(** [encode]: set the content type, write the status, then the JSON text of
    [v] and a line feed in one [Write] (what [json.Encoder.Encode] does); a
    failed [Write] comes back wrapped.  [to_json] is the object the struct
    tags of [T] describe. *)
Definition encode `{GoLib} {T W : Type} `{http_ResponseWriter W}
  (to_json : T -> json) (w : W) (status : Z) (v : T) : W * option goerror :=
  let w := Header_update (Header_Set "Content-Type" "application/json") w in
  let w := WriteHeader status w in
  let '(w, ret) := Write (json_text (to_json v) +:+ newline) w in
  (w, fmt_Errorf_w "encode json: " <$> snd ret).

(** The [responseBody] of [handleGetHealth]. *)
Record responseBody := {
  Version : string;
  Uptime : string
}.

Definition responseBody_json (res : responseBody) : json :=
  JObject [("Version", JString (Version res)); ("Uptime", JString (Uptime res))].

(** [handleGetHealth]; [uptime] is the text of [time.Since(up)] when the
    request is served. *)
Definition handleGetHealth `{GoLib} (version uptime : string) : http_Handler :=
  fun W _ w _ st =>
    let res := {| Version := version; Uptime := uptime |} in
    match encode responseBody_json w StatusOK res with
    | (w, Some err) => (Returned, http_Error w (Error err) StatusInternalServerError, st)
    | (w, None) => (Returned, w, st)
    end.

(** The [html/template] package as [handleHomePage] uses it: the error, if
    any, of parsing [homePage], and the execution of the parsed template on
    the caller's address and the resources, which writes to [w] and may
    fail. *)
Class Template := {
  tpl_Parse : option goerror;
  tpl_Execute : forall (W : Type), http_ResponseWriter W ->
                  W -> string -> PangolinResources -> W * option goerror
}.

(** [handleHomePage] *)
Definition handleHomePage `{GoLib} `{Upstream} `{Template} (pangolinClient : Pangolin)
  : http_Handler :=
  fun W _ w r st =>
    if negb (String.eqb (URL_Path r) "/") then (Returned, http_NotFound w, st)
    else
      match GetResources pangolinClient st with
      | (inr err, st) =>
          (Returned, http_Error w (Error err) StatusInternalServerError, st)
      | (inl resources, st) =>
          let w := Header_update (Header_Set "Content-Type" "text/html") w in
          match tpl_Parse with
          | Some err =>
              (Returned, http_Error w (Error err) StatusInternalServerError, st)
          | None =>
              match tpl_Execute W _ w (Header_Get (Header r) "X-Real-IP") resources with
              | (w, Some err) =>
                  (Returned, http_Error w (Error err) StatusInternalServerError, st)
              | (w, None) => (Returned, w, st)
              end
          end
      end.

(** * The vocabulary of the properties *)

(** ** Observations *)

(** The status a recorder holds after the calls [cs] reached it: the code of
    the last [WriteHeader] among them, [init] when there is none. *)
Definition recorded_status (init : Z) (cs : list SinkCall) : Z :=
  fold_left (fun acc c => match c with
                          | CallWriteHeader statusCode => statusCode
                          | CallWrite _ => acc
                          end) cs init.

(** [WriteHeader] called once for each code of the list, in order. *)
Definition WriteHeader_each {W : Type} `{http_ResponseWriter W} (codes : list Z) (w : W) : W :=
  fold_left (fun w statusCode => WriteHeader statusCode w) codes w.


(** The request each call hands to the HTTP client: [http.NewRequest]'s
    request with the two headers of [request] added. *)
Definition client_Header (p : Pangolin) : http_Header :=
  Header_Add "Content-Type" "application/json"
    (Header_Add "Authorization" ("Bearer " +:+ token p) ∅).

Definition GetResources_request (p : Pangolin) : ClientRequest :=
  {| creq_Method := "GET";
     creq_URL := baseURL p +:+ "/org/" +:+ org p +:+ "/resources";
     creq_Header := client_Header p;
     creq_Body := None |}.

Definition CreateRule_request (p : Pangolin) (rule : PangolinRule) (resourceID : Z)
  : ClientRequest :=
  {| creq_Method := "PUT";
     creq_URL := baseURL p +:+ "/resource/" +:+ Itoa resourceID +:+ "/rule";
     creq_Header := client_Header p;
     creq_Body := Some (json_text (PangolinRule_json rule)) |}.

Definition sending (req : ClientRequest) (st : World) : World :=
  {| logs := logs st; sent := sent st ++ [req] |}.

(** The member names of an object, in order. *)
Definition json_keys (v : json) : list string :=
  match v with
  | JObject fields => map fst fields
  | _ => []
  end.

(** [http.Error] as the calls it makes. *)
Definition http_Error_calls (error : string) (code : Z) (next : prog) : prog :=
  ChangeHeader (Header_Del "Content-Length")
    (ChangeHeader (Header_Set "Content-Type" "text/plain; charset=utf-8")
       (ChangeHeader (Header_Set "X-Content-Type-Options" "nosniff")
          (CallWriteHeaderThen code
             (CallWriteThen (error +:+ newline) (fun _ => next))))).

(** The rule [handleRegisterIP] builds for a request. *)
Definition register_rule (r : http_Request) : PangolinRule :=
  {| RuleID := None; ResourceID := None; Enabled := Some true; Priority := Some 10;
     Action := Some "ACCEPT"; Match := Some "IP";
     Value := Some (Header_Get (Header r) "X-Real-IP") |}.

Section HandlerCalls.
Context `{GoLib} `{Upstream}.

(** [handleRegisterIP] as the calls it makes on its writer and upstream. *)
Definition handleRegisterIP_calls (pangolinClient : Pangolin) (r : http_Request) : prog :=
  match Atoi (PathValue r "id") with
  | inr err => http_Error_calls (Error err) StatusInternalServerError Return_
  | inl resourceID =>
      Effect _ (CreateRule pangolinClient (register_rule r) resourceID)
        (fun res =>
           match res with
           | inr err => http_Error_calls (Error err) StatusInternalServerError Return_
           | inl _ => CallWriteThen ("Success" +:+ newline) (fun _ => Return_)
           end)
  end.

End HandlerCalls.

(** ** Scenario data *)

(** The body of the scenario for [GetResources], and the resource it
    describes. *)
Definition svc_body : string :=
  dq "{'data':{'resources':[{'resourceId':1,'name':'svc','enabled':true,'fullDomain':'svc.example.com'}]},'success':true,'error':false,'message':'','status':200}".

Definition svc_resource : PangolinResource :=
  {| resource_ResourceID := Some 1; resource_Name := Some "svc";
     resource_Enabled := Some true; resource_FullDomain := Some "svc.example.com" |}.

(** The body of the scenario for [CreateRule]. *)
Definition duplicate_body : string := dq "{'error':true,'message':'duplicate rule'}".

(** The envelope of a refused operation, as [GetResources] could receive it
    with HTTP 200. *)
Definition refused_body : string :=
  dq "{'data':{'resources':[]},'success':false,'error':true,'message':'org not found','status':404}".

(** ** Concrete values *)

(** A standard library for the runs below: every URL is accepted, quoting
    puts the string between double quotes. *)
Definition example_lib : GoLib :=
  {| strconv_Quote := fun s => String dquote (s +:+ String dquote EmptyString);
     json_error := fun _ => foreignError "invalid JSON";
     url_error := fun _ => None |}.

(** An upstream that answers every request with [res]. *)
Definition answering (res : http_Response) : Upstream :=
  {| http_Client_Do := fun _ => inl res |}.

(** A response nothing has been written to, on a connection that takes every
    byte. *)
Definition new_sink : Sink :=
  {| sink_Header := ∅; sink_calls := []; sink_reply := fun _ b => (len b, None) |}.

Definition new_world : World := {| logs := []; sent := [] |}.

Definition example_client : Pangolin :=
  InitPangolin "secret" "https://pangolin.example.com" "home".

(** [PUT /register/42] with a body and no [X-Real-IP] header. *)
Definition put_request : http_Request :=
  {| Method := "PUT"; URL_Path := "/register/42"; URL_RawQuery := EmptyString;
     Header := ∅; RemoteAddr := "10.0.0.7:51000";
     PathValues := {["id" := "42"]}; Body := "ignored" |}.

Definition example_environ (name : string) : option string :=
  if String.eqb name "PORT" then Some "8080"
  else if String.eqb name "PANGOLIN_TOKEN" then Some "secret"
  else if String.eqb name "PANGOLIN_HOST" then Some "https://pangolin.example.com"
  else if String.eqb name "PANGOLIN_ORG" then Some "home"
  else None.


Definition panic_after_write (_ : http_Request) : prog :=
  CallWriteThen "partial" (fun _ => Panic (PanicString "boom")).

Definition panic_after_status (_ : http_Request) : prog :=
  CallWriteHeaderThen 404 (Panic (PanicString "boom")).

(** The bytes written by the [Write] calls among [cs]. *)
Definition written_bytes (cs : list SinkCall) : Z :=
  fold_left (fun acc c => match c with
                          | CallWriteHeader _ => acc
                          | CallWrite b => acc + len b
                          end) cs 0.

(** The byte count of a recorder that starts at [n] and sees the calls [cs]. *)
Definition bytes_after (n : Z) (cs : list SinkCall) : Z :=
  fold_left (fun acc c => match c with
                          | CallWriteHeader _ => acc
                          | CallWrite b => wrap_int (acc + len b)
                          end) cs n.

(** The calls that reached sink [s1] after it was in state [s0]. *)
Definition calls_since (s0 s1 : Sink) : list SinkCall :=
  drop (length (sink_calls s0)) (sink_calls s1).

(** The record [accesslog] writes for request [r] with the recorded [status]
    and byte count. *)
Definition accessed_record (r : http_Request) (status bytes : Z) : LogRecord :=
  {| log_level := LevelInfo; log_msg := "accessed";
     log_attrs := [("latency", LatencyValue);
                   ("method", StringValue (Method r));
                   ("path", StringValue (URL_Path r));
                   ("query", StringValue (URL_RawQuery r));
                   ("ip", StringValue (Header_Get (Header r) "X-Real-IP"));
                   ("status", IntValue status);
                   ("bytes", IntValue bytes)] |}.

(** The record [recovery] writes for a panic with value [v] during [r]. *)
Definition panic_record (r : http_Request) (v : panicval) : LogRecord :=
  {| log_level := LevelError; log_msg := "panic!";
     log_attrs := [("error", AnyValue v);
                   ("stack", StackValue);
                   ("method", StringValue (Method r));
                   ("path", StringValue (URL_Path r));
                   ("query", StringValue (URL_RawQuery r));
                   ("ip", StringValue (RemoteAddr r))] |}.



(** A template engine for the runs below: it writes one chunk. *)
Definition example_template : Template :=
  {| tpl_Parse := None;
     tpl_Execute := fun W _ w ip resources => (fst (Write ("<p>" +:+ ip +:+ "</p>") w), None) |}.



(** An upstream that cannot be reached, a request whose id is no number,
    and handlers that return after a response or panic with a wrapped abort. *)
Definition unreachable (err : goerror) : Upstream :=
  {| http_Client_Do := fun _ => inr err |}.

Definition bad_id_request : http_Request :=
  {| Method := "PUT"; URL_Path := "/register/abc"; URL_RawQuery := EmptyString;
     Header := ∅; RemoteAddr := "10.0.0.7:51000";
     PathValues := {["id" := "abc"]}; Body := EmptyString |}.

Definition created_handler (_ : http_Request) : prog :=
  CallWriteHeaderThen 201 (CallWriteThen "hello" (fun _ => Return_)).

Definition aborting_handler (_ : http_Request) : prog :=
  CallWriteThen "partial"
    (fun _ => Panic (PanicError (wrapError "copy: net/http: abort Handler" ErrAbortHandler))).

(** * Properties *)

(** ** The response recorder *)

Lemma recorded_status_app (init : Z) (cs1 cs2 : list SinkCall) :
  recorded_status init (cs1 ++ cs2) = recorded_status (recorded_status init cs1) cs2.
Proof. unfold recorded_status. apply fold_left_app. Qed.

Lemma last_cons_default {A : Type} (l : list A) (x d : A) :
  List.last (x :: l) d = List.last l x.
Proof.
  revert x d. induction l as [|y l IH]; intros x d; [reflexivity|].
  change (List.last (x :: y :: l) d) with (List.last (y :: l) d).
  rewrite (IH y d), (IH y x). reflexivity.
Qed.

Lemma WriteHeader_each_recorder (codes : list Z) (re : responseRecorder Sink) :
  sink_calls (ResponseWriter (WriteHeader_each codes re))
    = sink_calls (ResponseWriter re) ++ map CallWriteHeader codes
  /\ status (WriteHeader_each codes re) = List.last codes (status re)
  /\ numBytes (WriteHeader_each codes re) = numBytes re.
Proof.
  revert re. induction codes as [|c codes IH]; intros re.
  - cbn. rewrite app_nil_r. auto.
  - change (WriteHeader_each (c :: codes) re)
      with (WriteHeader_each codes (WriteHeader c re)).
    destruct (IH (WriteHeader c re)) as (Hcalls & Hstatus & Hbytes).
    rewrite Hcalls, Hstatus, Hbytes, last_cons_default. cbn.
    rewrite <- app_assoc. auto.
Qed.

(** ** The pipeline *)

(** A recorder hands every call on to the writer it wraps and returns what
    that writer returns: behind the recorder, the handler does what it does
    on the bare writer. *)
Lemma exec_recorder (p : prog) (W : Type) `{http_ResponseWriter W}
  (wr : responseRecorder W) (st : World) :
  exec p W (ResponseWriter wr) st
  = (let res := exec p (responseRecorder W) wr st in
     (fst (fst res), ResponseWriter (snd (fst res)), snd res)).
Proof.
  revert wr st.
  induction p as [ | v | next IH | f next IH | c next IH | b next IH | A f next IH ];
    intros wr st; cbn.
  - reflexivity.
  - reflexivity.
  - exact (IH _ wr st).
  - exact (IH {| ResponseWriter := Header_update f (ResponseWriter wr);
                 status := status wr; numBytes := numBytes wr |} st).
  - exact (IH {| ResponseWriter := WriteHeader c (ResponseWriter wr);
                 status := c; numBytes := numBytes wr |} st).
  - destruct (Write b (ResponseWriter wr)) as [w' ret] eqn:Hw.
    exact (IH ret {| ResponseWriter := w'; status := status wr;
                     numBytes := wrap_int (numBytes wr + len b) |} st).
  - destruct (f st) as [a st']. apply IH.
Qed.

(** Over the sink, the recorder's status is the code of the last
    [WriteHeader] that reached the sink since the recorder was made. *)
Lemma exec_recorder_status (p : prog) (wr : responseRecorder Sink) (st : World) :
  let wr' := snd (fst (exec p (responseRecorder Sink) wr st)) in
  exists cs,
    sink_calls (ResponseWriter wr') = sink_calls (ResponseWriter wr) ++ cs
    /\ status wr' = recorded_status (status wr) cs.
Proof.
  revert wr st.
  induction p as [ | v | next IH | f next IH | c next IH | b next IH | A f next IH ];
    intros wr st; cbn.
  - exists []. rewrite app_nil_r. auto.
  - exists []. rewrite app_nil_r. auto.
  - exact (IH _ wr st).
  - exact (IH {| ResponseWriter := Header_update f (ResponseWriter wr);
                 status := status wr; numBytes := numBytes wr |} st).
  - destruct (IH {| ResponseWriter := WriteHeader c (ResponseWriter wr);
                    status := c; numBytes := numBytes wr |} st) as (cs & Hcalls & Hstatus).
    exists (CallWriteHeader c :: cs). cbn in *. rewrite Hcalls, Hstatus, <- app_assoc. auto.
  - set (wr1 := {| ResponseWriter := fst (Write b (ResponseWriter wr)); status := status wr;
                   numBytes := wrap_int (numBytes wr + len b) |}).
    destruct (IH (sink_reply (ResponseWriter wr) (sink_calls (ResponseWriter wr)) b) wr1 st)
      as (cs & Hcalls & Hstatus).
    exists (CallWrite b :: cs). subst wr1. cbn in *.
    rewrite Hcalls, Hstatus, <- app_assoc. auto.
  - destruct (f st) as [a st']. apply IH.
Qed.

Section PipelineFacts.
Context `{GoLib}.

(** When the handler panics, [accesslog] passes the panic on and logs
    nothing. *)
Lemma accesslog_panic (p : http_Request -> prog) (W : Type) `{http_ResponseWriter W}
  (w w1 : W) (r : http_Request) (st st1 : World) (v : panicval) :
  serve p W _ w r st = (Panicked v, w1, st1) ->
  accesslog (serve p) W _ w r st = (Panicked v, w1, st1).
Proof.
  unfold accesslog, serve. intros Hrun.
  pose proof (exec_recorder (p r) W
                {| ResponseWriter := w; status := 0; numBytes := 0 |} st) as Hsim.
  cbn in Hsim. rewrite Hrun in Hsim.
  destruct (exec (p r) (responseRecorder W) _ st) as [[out wr] st'].
  cbn in Hsim. inversion Hsim; subst. reflexivity.
Qed.




End PipelineFacts.

(** ** Claims about the recorder and the pipeline *)

(** C2 (amended): when [WriteHeader] is called two or more times on a
    [responseRecorder], every call is forwarded to the underlying writer, in
    order, and the status the recorder holds afterwards is the code of the
    last call. *)
Theorem WriteHeader_records_last_status
  (first : Z) (rest : list Z) (final : Z) (re : responseRecorder Sink) :
  let codes := first :: rest ++ [final] in
  sink_calls (ResponseWriter (WriteHeader_each codes re))
    = sink_calls (ResponseWriter re) ++ map CallWriteHeader codes
  /\ status (WriteHeader_each codes re) = final.
Proof.
  intros codes.
  destruct (WriteHeader_each_recorder codes re) as (Hcalls & Hstatus & _).
  split; [exact Hcalls|].
  rewrite Hstatus. unfold codes.
  change (first :: rest ++ [final]) with ((first :: rest) ++ [final]).
  apply last_last.
Qed.

Section PipelineClaims.
Context `{GoLib}.


(** C5: when the handler panics with a value that is not the abort signal,
    the pipeline returns, and what [recovery] does to the response depends on
    the status its recorder holds, which is the code of the last
    [WriteHeader] the handler made (0 when it made none): with status 0 the
    writer receives [http.Error] with the text of the panic value and code
    500, that is one [WriteHeader(500)] and one [Write] of the text and a
    line feed; with a positive status the writer receives nothing more. *)
Theorem recovery_after_panic
  (p : http_Request -> prog) (r : http_Request) (s0 s1 : Sink) (st st1 : World)
  (v : panicval) :
  sink_calls s0 = [] ->
  serve p Sink _ s0 r st = (Panicked v, s1, st1) ->
  is_abort v = false ->
  let fresh := {| ResponseWriter := s0; status := 0; numBytes := 0 |} in
  let wr := snd (fst (accesslog (serve p) (responseRecorder Sink) _ fresh r st)) in
  let s2 := snd (fst (route (serve p) Sink _ s0 r st)) in
  fst (fst (route (serve p) Sink _ s0 r st)) = Returned
  /\ ResponseWriter wr = s1
  /\ status wr = recorded_status 0 (sink_calls s1)
  /\ (status wr = 0 ->
      s2 = http_Error s1 (fmt_Sprint v) 500
      /\ sink_calls s2
         = sink_calls s1 ++ [CallWriteHeader 500; CallWrite (fmt_Sprint v +:+ newline)])
  /\ (0 < status wr -> s2 = s1).
Proof.
  intros Hfresh Hrun Habort fresh wr s2.
  pose proof (exec_recorder (p r) Sink fresh st) as Hsim.
  cbn in Hsim. fold (serve p Sink _ s0 r st) in Hsim. rewrite Hrun in Hsim.
  pose proof (exec_recorder_status (p r) fresh st) as Hstatus.
  fold (serve p (responseRecorder Sink) _ fresh r st) in Hsim, Hstatus.
  destruct (serve p (responseRecorder Sink) _ fresh r st) as [[out wr'] st'] eqn:Hrec.
  cbn in Hsim, Hstatus. inversion Hsim; subst out st'.
  pose proof (accesslog_panic p (responseRecorder Sink) _ wr' r st st1 v Hrec) as Hacc.
  assert (wr = wr') as -> by (unfold wr; rewrite Hacc; reflexivity).
  assert (s2 = if 0 <? status wr' then ResponseWriter wr'
               else http_Error (ResponseWriter wr') (fmt_Sprint v) 500) as Hs2.
  { unfold s2, route, recovery. fold fresh. rewrite Hacc, Habort.
    destruct (0 <? status wr'); reflexivity. }
  destruct Hstatus as (cs & Hcalls & Hcs).
  rewrite Hfresh in Hcalls. cbn in Hcalls.
  split; [|split; [|split; [|split]]].
  - unfold route, recovery. fold fresh. rewrite Hacc, Habort.
    destruct (0 <? status wr'); reflexivity.
  - reflexivity.
  - rewrite Hcs, Hcalls. reflexivity.
  - intros Hzero. rewrite Hs2, Hzero. cbn. rewrite <- app_assoc. auto.
  - intros Hpos. rewrite Hs2. apply Z.ltb_lt in Hpos. rewrite Hpos. reflexivity.
Qed.

End PipelineClaims.

(** ** The Pangolin client *)

Section ClientFacts.
Context `{GoLib} `{Upstream}.

Lemma GetResources_run (p : Pangolin) (st : World) :
  url_error (creq_URL (GetResources_request p)) = None ->
  GetResources p st
  = (match http_Client_Do (GetResources_request p) with
     | inr err => inr err
     | inl res =>
         if negb (StatusCode res =? 200)
         then inr (errors_New ("error status code: " +:+ Status res))
         else
           match io_ReadAll (res_Body res) with
           | inr err => inr err
           | inl body =>
               match json_Unmarshal (decode_PangolinResponse decode_PangolinResources)
                       body (zero_PangolinResponse zero_PangolinResources) with
               | inr err => inr err
               | inl resp => inl (resp_Data resp)
               end
           end
     end, sending (GetResources_request p) st).
Proof.
  intros Hurl. unfold GetResources, M_bind, M_lift, M_fail, M_ret, http_NewRequest, request.
  cbn in Hurl. unfold MethodGet. rewrite Hurl. cbn [creq_Method creq_URL creq_Header creq_Body].
  fold (client_Header p). fold (GetResources_request p).
  fold (sending (GetResources_request p) st).
  destruct (http_Client_Do (GetResources_request p)) as [res|err]; [|reflexivity].
  destruct (negb (StatusCode res =? 200)); [reflexivity|].
  destruct (io_ReadAll (res_Body res)) as [body|err]; [|reflexivity].
  destruct (json_Unmarshal _ body _) as [resp|err]; reflexivity.
Qed.

Lemma CreateRule_run (p : Pangolin) (rule : PangolinRule) (resourceID : Z) (st : World) :
  url_error (creq_URL (CreateRule_request p rule resourceID)) = None ->
  CreateRule p rule resourceID st
  = (match http_Client_Do (CreateRule_request p rule resourceID) with
     | inr err => inr err
     | inl res =>
         match io_ReadAll (res_Body res) with
         | inr err => inr err
         | inl body =>
             match json_Unmarshal (decode_PangolinResponse decode_PangolinRule)
                     body (zero_PangolinResponse zero_PangolinRule) with
             | inr err => inr err
             | inl resp =>
                 if resp_Error resp
                 then inr (errors_New ("error: " +:+ resp_Message resp))
                 else inl (resp_Data resp)
             end
         end
     end, sending (CreateRule_request p rule resourceID) st).
Proof.
  intros Hurl.
  unfold CreateRule, M_bind, M_lift, M_fail, M_ret, http_NewRequest, request,
    json_Marshal_PangolinRule.
  cbn in Hurl. unfold MethodPut. rewrite Hurl.
  cbn [creq_Method creq_URL creq_Header creq_Body].
  fold (client_Header p). fold (CreateRule_request p rule resourceID).
  fold (sending (CreateRule_request p rule resourceID) st).
  destruct (http_Client_Do (CreateRule_request p rule resourceID)) as [res|err];
    [|reflexivity].
  destruct (io_ReadAll (res_Body res)) as [body|err]; [|reflexivity].
  destruct (json_Unmarshal _ body _) as [resp|err]; [|reflexivity].
  destruct (resp_Error resp); reflexivity.
Qed.

(** When the URL is refused, nothing is sent. *)
Lemma CreateRule_bad_url (p : Pangolin) (rule : PangolinRule) (resourceID : Z)
  (st : World) (err : goerror) :
  url_error (creq_URL (CreateRule_request p rule resourceID)) = Some err ->
  CreateRule p rule resourceID st = (inr err, st).
Proof.
  intros Hurl.
  unfold CreateRule, M_bind, M_lift, http_NewRequest, json_Marshal_PangolinRule.
  cbn in Hurl. rewrite Hurl. reflexivity.
Qed.

End ClientFacts.

Section ClientClaims.
Context `{GoLib} `{Upstream}.

Lemma Unmarshal_svc_body :
  json_Unmarshal (decode_PangolinResponse decode_PangolinResources) svc_body
    (zero_PangolinResponse zero_PangolinResources)
  = inl {| resp_Data := {| Resources := [svc_resource] |}; resp_Success := true;
           resp_Error := false; resp_Message := EmptyString; resp_Status := 200 |}.
Proof. vm_compute. reflexivity. Qed.

Lemma Unmarshal_duplicate_body :
  json_Unmarshal (decode_PangolinResponse decode_PangolinRule) duplicate_body
    (zero_PangolinResponse zero_PangolinRule)
  = inl {| resp_Data := zero_PangolinRule; resp_Success := false;
           resp_Error := true; resp_Message := "duplicate rule"; resp_Status := 0 |}.
Proof. vm_compute. reflexivity. Qed.

Lemma Unmarshal_empty_object :
  json_Unmarshal (decode_PangolinResponse decode_PangolinRule) "{}"
    (zero_PangolinResponse zero_PangolinRule)
  = inl (zero_PangolinResponse zero_PangolinRule).
Proof. vm_compute. reflexivity. Qed.

(** C3: when the round trip of [CreateRule] succeeds (the request is built and
    answered, the body is read), the body is decoded whatever the HTTP
    status is; an envelope with [error] set makes the call fail with the
    error [errors.New("error: " + message)], any other envelope makes it
    return the envelope's data.  For the body
    [{"error":true,"message":"duplicate rule"}] the result is the error with
    text [error: duplicate rule]. *)
Theorem CreateRule_reads_envelope
  (p : Pangolin) (rule : PangolinRule) (resourceID : Z) (st : World)
  (res : http_Response) (body : string) :
  url_error (creq_URL (CreateRule_request p rule resourceID)) = None ->
  http_Client_Do (CreateRule_request p rule resourceID) = inl res ->
  res_Body res = (body, None) ->
  let decoded := json_Unmarshal (decode_PangolinResponse decode_PangolinRule)
                   body (zero_PangolinResponse zero_PangolinRule) in
  (forall resp, decoded = inl resp -> resp_Error resp = true ->
     fst (CreateRule p rule resourceID st)
     = inr (errors_New ("error: " +:+ resp_Message resp)))
  /\ (forall resp, decoded = inl resp -> resp_Error resp = false ->
        fst (CreateRule p rule resourceID st) = inl (resp_Data resp))
  /\ (body = duplicate_body ->
        fst (CreateRule p rule resourceID st) = inr (errorString "error: duplicate rule")).
Proof.
  intros Hurl Hdo Hbody decoded.
  rewrite (CreateRule_run p rule resourceID st Hurl), Hdo.
  unfold io_ReadAll. rewrite Hbody. cbn [fst snd]. fold decoded.
  repeat split.
  - intros resp -> ->. reflexivity.
  - intros resp -> ->. reflexivity.
  - intros ->. unfold decoded. rewrite Unmarshal_duplicate_body. reflexivity.
Qed.

(** C9: [CreateRule] never looks at the HTTP status.  Whatever the status
    code and status text of the answer, a body that decodes to an envelope
    with [error] unset makes the call return the envelope's data; the body
    [{}] gives the rule with every field unset. *)
Theorem CreateRule_ignores_status
  (p : Pangolin) (rule : PangolinRule) (resourceID : Z) (st : World)
  (code : Z) (text body : string) :
  url_error (creq_URL (CreateRule_request p rule resourceID)) = None ->
  http_Client_Do (CreateRule_request p rule resourceID)
  = inl {| StatusCode := code; Status := text; res_Body := (body, None) |} ->
  (forall resp,
     json_Unmarshal (decode_PangolinResponse decode_PangolinRule)
       body (zero_PangolinResponse zero_PangolinRule) = inl resp ->
     resp_Error resp = false ->
     fst (CreateRule p rule resourceID st) = inl (resp_Data resp))
  /\ (body = "{}" -> fst (CreateRule p rule resourceID st) = inl zero_PangolinRule).
Proof.
  intros Hurl Hdo.
  rewrite (CreateRule_run p rule resourceID st Hurl), Hdo.
  unfold io_ReadAll. cbn [fst snd res_Body].
  split.
  - intros resp -> ->. reflexivity.
  - intros ->. rewrite Unmarshal_empty_object. reflexivity.
Qed.

(** C6: when [GetResources] gets an answer whose status is not 200, it fails
    with [errors.New("error status code: " + status text)], whatever the
    body; when the status is 200 and the body is the envelope of the
    scenario, it returns the one resource of [data.resources]. *)
Theorem GetResources_status_and_data
  (p : Pangolin) (st : World) (res : http_Response) :
  url_error (creq_URL (GetResources_request p)) = None ->
  http_Client_Do (GetResources_request p) = inl res ->
  (StatusCode res <> 200 ->
     fst (GetResources p st) = inr (errors_New ("error status code: " +:+ Status res)))
  /\ (StatusCode res = 200 -> res_Body res = (svc_body, None) ->
        fst (GetResources p st) = inl {| Resources := [svc_resource] |}).
Proof.
  intros Hurl Hdo.
  rewrite (GetResources_run p st Hurl), Hdo. cbn [fst].
  split.
  - intros Hcode. apply Z.eqb_neq in Hcode. rewrite Hcode. reflexivity.
  - intros Hcode Hbody. rewrite Hcode. cbn [Z.eqb Pos.eqb negb].
    unfold io_ReadAll. rewrite Hbody. cbn [fst snd].
    rewrite Unmarshal_svc_body. reflexivity.
Qed.

End ClientClaims.

(** ** The wire form of a rule *)

Lemma append_assoc (a b c : string) : (a +:+ b) +:+ c = a +:+ (b +:+ c).
Proof.
  induction a as [|x a IH]; [reflexivity|].
  change (String x ((a +:+ b) +:+ c) = String x (a +:+ (b +:+ c))).
  f_equal. exact IH.
Qed.

(** C7: a rule whose [RuleID] and [ResourceID] are unset and whose other five
    fields are set is serialized as an object of exactly those five members,
    in declaration order: the keys [ruleId] and [resourceId] do not occur in
    the text sent as the body of the [CreateRule] request, neither with a
    value nor with [null]. *)
Theorem Marshal_omits_unset_ids
  (enabled : bool) (priority : Z) (action match_ value : string) :
  let rule := {| RuleID := None; ResourceID := None; Enabled := Some enabled;
                 Priority := Some priority; Action := Some action;
                 Match := Some match_; Value := Some value |} in
  json_keys (PangolinRule_json rule) = ["enabled"; "priority"; "action"; "match"; "value"]
  /\ json_Marshal_PangolinRule rule
     = inl (String.concat EmptyString
              [dq "{'enabled':"; if enabled then "true" else "false";
               dq ",'priority':"; Itoa priority;
               dq ",'action':"; encode_string action;
               dq ",'match':"; encode_string match_;
               dq ",'value':"; encode_string value; "}"])
  /\ (forall p resourceID,
        creq_Body (CreateRule_request p rule resourceID)
        = match json_Marshal_PangolinRule rule with
          | inl text => Some text
          | inr _ => None
          end).
Proof.
  intros rule. split; [reflexivity|]. split; [|reflexivity].
  unfold json_Marshal_PangolinRule. f_equal.
  unfold rule, PangolinRule_json, omitempty.
  cbn [RuleID ResourceID Enabled Priority Action Match Value app].
  unfold json_text. cbn [map fst snd join_comma fold_left JInt].
  rewrite !append_assoc. destruct enabled; reflexivity.
Qed.

(** ** The registration handler *)

Section HandlerClaims.
Context `{GoLib} `{Upstream}.

(** The handler is one of the behaviours the pipeline properties speak of. *)
Lemma handleRegisterIP_serve (pangolinClient : Pangolin) (W : Type) `{http_ResponseWriter W}
  (w : W) (r : http_Request) (st : World) :
  handleRegisterIP pangolinClient W _ w r st
  = serve (handleRegisterIP_calls pangolinClient) W _ w r st.
Proof.
  unfold handleRegisterIP, serve, handleRegisterIP_calls. fold (register_rule r).
  destruct (Atoi (PathValue r "id")) as [resourceID|err].
  - cbn [exec].
    destruct (CreateRule pangolinClient (register_rule r) resourceID st)
      as [[rule|err] st'].
    + cbn [exec]. destruct (Write ("Success" +:+ newline) w); reflexivity.
    + unfold http_Error_calls, http_Error. cbn [exec].
      destruct (Write (Error err +:+ newline) _); reflexivity.
  - unfold http_Error_calls, http_Error. cbn [exec].
    destruct (Write (Error err +:+ newline) _); reflexivity.
Qed.

(** C10: for a request whose [id] is a number, [handleRegisterIP] calls
    [CreateRule] with the rule [{action: ACCEPT, match: IP, value: the
    X-Real-IP header, priority: 10, enabled: true}], [RuleID] and
    [ResourceID] unset, and answers from its result; when the URL is
    accepted, the one request sent upstream carries that rule as its body.
    The value is the header as [Header.Get] gives it, the empty string when
    the header is empty or missing.  Nothing else of the request is read: two
    requests with the same headers and path values are handled alike,
    whatever their bodies. *)
Theorem handleRegisterIP_sends_rule
  (pangolinClient : Pangolin) (W : Type) `{http_ResponseWriter W}
  (w : W) (r : http_Request) (st : World) (resourceID : Z) :
  Atoi (PathValue r "id") = inl resourceID ->
  let rule := {| RuleID := None; ResourceID := None; Enabled := Some true;
                 Priority := Some 10; Action := Some "ACCEPT"; Match := Some "IP";
                 Value := Some (Header_Get (Header r) "X-Real-IP") |} in
  handleRegisterIP pangolinClient W _ w r st
  = (match CreateRule pangolinClient rule resourceID st with
     | (inr err, st') =>
         (Returned, http_Error w (Error err) StatusInternalServerError, st')
     | (inl _, st') => (Returned, fst (Write ("Success" +:+ newline) w), st')
     end)
  /\ (url_error (creq_URL (CreateRule_request pangolinClient rule resourceID)) = None ->
      sent (snd (handleRegisterIP pangolinClient W _ w r st))
      = sent st ++ [CreateRule_request pangolinClient rule resourceID])
  /\ (forall r' : http_Request,
        Header r' = Header r -> PathValues r' = PathValues r ->
        handleRegisterIP pangolinClient W _ w r' st
        = handleRegisterIP pangolinClient W _ w r st).
Proof.
  intros Hid rule. split; [|split].
  - unfold handleRegisterIP. rewrite Hid. reflexivity.
  - intros Hurl. unfold handleRegisterIP. rewrite Hid. fold rule.
    rewrite (CreateRule_run pangolinClient rule resourceID st Hurl).
    destruct (http_Client_Do _) as [res|err]; [|reflexivity].
    destruct (io_ReadAll (res_Body res)) as [body|err]; [|reflexivity].
    destruct (json_Unmarshal _ body _) as [resp|err]; [|reflexivity].
    destruct (resp_Error resp); reflexivity.
  - intros r' Hheader Hpath. unfold handleRegisterIP, PathValue.
    rewrite Hheader, Hpath. reflexivity.
Qed.

End HandlerClaims.

(** ** The lifecycle *)

Section LifecycleClaims.
Context `{GoLib}.

(** With the four variables present and [PORT] a number, [run] gets as far
    as the [select]. *)
Lemma run_started (environ : string -> option string) (version portEnv token host org : string)
  (port : Z) (events : list Trigger) (shutdown : option goerror) :
  environ "PORT" = Some portEnv -> Atoi portEnv = inl port ->
  environ "PANGOLIN_TOKEN" = Some token ->
  environ "PANGOLIN_HOST" = Some host ->
  environ "PANGOLIN_ORG" = Some org ->
  fst (run environ environ version events shutdown)
  = match select_case events with
    | None => Blocks
    | Some (inl err) => Returns (Some err)
    | Some (inr _) => Returns (fmt_Errorf_w "server shutdown: " <$> shutdown)
    end.
Proof.
  intros Hport Hatoi Htoken Hhost Horg. unfold run.
  rewrite Hport, Hatoi, Htoken, Hhost, Horg.
  destruct (select_case events) as [[err|[]]|]; [reflexivity| |reflexivity].
  destruct shutdown; reflexivity.
Qed.

(** C8: once the server is started, an [http.ErrServerClosed] reported by
    [ListenAndServe] is not put on the error channel: [run] goes on waiting
    for the signal and can still return [nil], the process then exiting with
    code 0.  Any other error reported before a signal is the result of
    [run], and the process writes its text and a line feed to standard error
    and exits with code 1.  A signal followed by a shutdown without error
    makes [run] return [nil] and the process exit with code 0 and nothing on
    standard error. *)
Theorem run_surfaces_serve_errors
  (environ : string -> option string) (version portEnv token host org : string)
  (port : Z) (rest : list Trigger) (shutdown : option goerror) :
  environ "PORT" = Some portEnv -> Atoi portEnv = inl port ->
  environ "PANGOLIN_TOKEN" = Some token ->
  environ "PANGOLIN_HOST" = Some host ->
  environ "PANGOLIN_ORG" = Some org ->
  (fst (run environ environ version (ServeReturns (Some ErrServerClosed) :: rest) shutdown)
   = (if existsb is_signal rest
      then Returns (fmt_Errorf_w "server shutdown: " <$> shutdown)
      else Blocks)
   /\ fst (run environ environ version [ServeReturns (Some ErrServerClosed); SignalArrives] None)
      = Returns None
   /\ main environ version [ServeReturns (Some ErrServerClosed); SignalArrives] None
      = Some (EmptyString, 0))
  /\ (forall err, err <> ErrServerClosed ->
        fst (run environ environ version (ServeReturns (Some err) :: rest) shutdown)
        = Returns (Some err)
        /\ main environ version (ServeReturns (Some err) :: rest) shutdown
           = Some (Error err +:+ newline, 1))
  /\ (fst (run environ environ version (SignalArrives :: rest) None) = Returns None
      /\ main environ version (SignalArrives :: rest) None = Some (EmptyString, 0)).
Proof.
  intros Hport Hatoi Htoken Hhost Horg.
  pose proof (fun events sd =>
                run_started environ version portEnv token host org port events sd
                  Hport Hatoi Htoken Hhost Horg) as Hrun.
  unfold main. rewrite !Hrun. split; [|split].
  - cbn. split; [|split; reflexivity].
    destruct (existsb is_signal rest); reflexivity.
  - intros err Herr. rewrite !Hrun. cbn.
    rewrite bool_decide_eq_false_2 by exact Herr. split; reflexivity.
  - split; reflexivity.
Qed.

End LifecycleClaims.

(** * Concrete runs *)


(** C2, as stated, fails: after [WriteHeader(200)] and [WriteHeader(500)] the
    recorder holds 500, not the first code. *)
Lemma WriteHeader_first_status_overwritten :
  sink_calls (ResponseWriter
                (WriteHeader_each [200; 500]
                   {| ResponseWriter := new_sink; status := 0; numBytes := 0 |}))
  = [CallWriteHeader 200; CallWriteHeader 500]
  /\ status (WriteHeader_each [200; 500]
               {| ResponseWriter := new_sink; status := 0; numBytes := 0 |}) = 500
  /\ status (WriteHeader_each [200; 500]
               {| ResponseWriter := new_sink; status := 0; numBytes := 0 |}) <> 200.
Proof. repeat split. discriminate. Qed.

(** C5 at two inputs: a panic after a [Write] without a status gets the 500
    response; a panic after [WriteHeader(404)] gets nothing more. *)
Lemma recovery_after_panic_witness :
  sink_calls (snd (fst (@route example_lib (serve panic_after_write) Sink _ new_sink
                          put_request new_world)))
  = [CallWrite "partial"; CallWriteHeader 500; CallWrite ("boom" +:+ newline)]
  /\ sink_calls (snd (fst (@route example_lib (serve panic_after_status) Sink _ new_sink
                             put_request new_world)))
     = [CallWriteHeader 404].
Proof.
  split.
  - edestruct (@recovery_after_panic example_lib panic_after_write put_request
                 new_sink _ new_world _ _ eq_refl eq_refl eq_refl)
      as (_ & _ & _ & Hzero & _).
    destruct (Hzero eq_refl) as [_ Hcalls]. exact Hcalls.
  - edestruct (@recovery_after_panic example_lib panic_after_status put_request
                 new_sink _ new_world _ _ eq_refl eq_refl eq_refl)
      as (_ & _ & _ & _ & Hpos).
    rewrite (Hpos eq_refl). reflexivity.
Defined.

(** C3 at the scenario: HTTP 200 with the envelope that reports a duplicate. *)
Lemma CreateRule_reads_envelope_witness :
  fst (@CreateRule example_lib
         (answering {| StatusCode := 200; Status := "200 OK";
                       res_Body := (duplicate_body, None) |})
         example_client (@register_rule put_request) 42 new_world)
  = inr (errorString "error: duplicate rule").
Proof.
  edestruct (@CreateRule_reads_envelope example_lib
               (answering {| StatusCode := 200; Status := "200 OK";
                             res_Body := (duplicate_body, None) |})
               example_client (@register_rule put_request) 42 new_world
               _ duplicate_body eq_refl eq_refl eq_refl)
    as (_ & _ & Hscenario).
  exact (Hscenario eq_refl).
Defined.

(** C9 at HTTP 503 with the body [{}]. *)
Lemma CreateRule_ignores_status_witness :
  fst (@CreateRule example_lib
         (answering {| StatusCode := 503; Status := "503 Service Unavailable";
                       res_Body := ("{}", None) |})
         example_client (@register_rule put_request) 42 new_world)
  = inl zero_PangolinRule.
Proof.
  edestruct (@CreateRule_ignores_status example_lib
               (answering {| StatusCode := 503; Status := "503 Service Unavailable";
                             res_Body := ("{}", None) |})
               example_client (@register_rule put_request) 42 new_world
               503 "503 Service Unavailable" "{}" eq_refl eq_refl)
    as (_ & Hempty).
  exact (Hempty eq_refl).
Defined.

(** C6 at the two scenarios: HTTP 503 with a well-formed body, and HTTP 200
    with it. *)
Lemma GetResources_status_and_data_witness :
  fst (@GetResources example_lib
         (answering {| StatusCode := 503; Status := "503 Service Unavailable";
                       res_Body := (svc_body, None) |})
         example_client new_world)
  = inr (errorString "error status code: 503 Service Unavailable")
  /\ fst (@GetResources example_lib
            (answering {| StatusCode := 200; Status := "200 OK";
                          res_Body := (svc_body, None) |})
            example_client new_world)
     = inl {| Resources := [svc_resource] |}.
Proof.
  split.
  - edestruct (@GetResources_status_and_data example_lib
                 (answering {| StatusCode := 503; Status := "503 Service Unavailable";
                               res_Body := (svc_body, None) |})
                 example_client new_world _ eq_refl eq_refl) as (Hother & _).
    apply Hother. discriminate.
  - edestruct (@GetResources_status_and_data example_lib
                 (answering {| StatusCode := 200; Status := "200 OK";
                               res_Body := (svc_body, None) |})
                 example_client new_world _ eq_refl eq_refl) as (_ & Hok).
    exact (Hok eq_refl eq_refl).
Defined.

(** C4 does not hold of the code: on HTTP 200 with an envelope whose [error]
    is set, [GetResources] returns the data and no error, where [CreateRule]
    on the same envelope fails with the message. *)
Theorem GetResources_skips_error_flag :
  fst (@GetResources example_lib
         (answering {| StatusCode := 200; Status := "200 OK";
                       res_Body := (refused_body, None) |})
         example_client new_world)
  = inl {| Resources := [] |}
  /\ fst (@CreateRule example_lib
            (answering {| StatusCode := 200; Status := "200 OK";
                          res_Body := (refused_body, None) |})
            example_client (@register_rule put_request) 42 new_world)
     = inr (errorString "error: org not found").
Proof. split; vm_compute; reflexivity. Qed.

(** C10 at [PUT /register/42] without an [X-Real-IP] header: one request goes
    upstream, a [PUT] to the rule URL of resource 42 whose body is the rule
    with an empty value. *)
Lemma handleRegisterIP_sends_rule_witness :
  map (fun req => (creq_Method req, creq_URL req, creq_Body req))
    (sent (snd (@handleRegisterIP example_lib
                  (answering {| StatusCode := 200; Status := "200 OK";
                                res_Body := ("{}", None) |})
                  example_client Sink _ new_sink put_request new_world)))
  = [("PUT", "https://pangolin.example.com/v1/resource/42/rule",
      Some (dq "{'enabled':true,'priority':10,'action':'ACCEPT','match':'IP','value':''}"))].
Proof.
  edestruct (@handleRegisterIP_sends_rule example_lib
               (answering {| StatusCode := 200; Status := "200 OK";
                             res_Body := ("{}", None) |})
               example_client Sink _ new_sink put_request new_world 42 eq_refl)
    as (_ & Hsent & _).
  rewrite (Hsent eq_refl). reflexivity.
Defined.

(** C8 at a listener that cannot bind its port, and at a clean shutdown. *)
Lemma run_surfaces_serve_errors_witness :
  @main example_lib example_environ "dev"
    [ServeReturns (Some (foreignError "listen tcp :8080: bind: address already in use"))]
    None
  = Some ("listen tcp :8080: bind: address already in use" +:+ newline, 1)
  /\ @main example_lib example_environ "dev"
       [ServeReturns (Some ErrServerClosed); SignalArrives] None
     = Some (EmptyString, 0).
Proof.
  edestruct (@run_surfaces_serve_errors example_lib example_environ "dev"
               "8080" "secret" "https://pangolin.example.com" "home" 8080 [] None
               eq_refl eq_refl eq_refl eq_refl eq_refl)
    as ((_ & _ & Hclosed) & Hfatal & _).
  split; [|exact Hclosed].
  apply (Hfatal (foreignError "listen tcp :8080: bind: address already in use")).
  discriminate.
Defined.

(** * Further properties *)

(** ** What the recorder counts *)

Lemma wrap_int_add_l (a b : Z) : wrap_int (wrap_int a + b) = wrap_int (a + b).
Proof.
  unfold wrap_int.
  replace ((a + 2 ^ 63) mod 2 ^ 64 - 2 ^ 63 + b + 2 ^ 63)
    with ((a + 2 ^ 63) mod 2 ^ 64 + b) by lia.
  rewrite Zplus_mod_idemp_l. f_equal. f_equal. lia.
Qed.

Lemma written_bytes_from (cs : list SinkCall) (a : Z) :
  fold_left (fun acc c => match c with
                          | CallWriteHeader _ => acc
                          | CallWrite b => acc + len b
                          end) cs a
  = a + written_bytes cs.
Proof.
  unfold written_bytes. revert a.
  induction cs as [|c cs IH]; intros a; cbn; [lia|].
  destruct c as [code|b]; [apply IH|].
  rewrite (IH (a + len b)), (IH (0 + len b)). lia.
Qed.

Lemma bytes_after_wrap (cs : list SinkCall) (n : Z) :
  wrap_int (bytes_after n cs) = wrap_int (n + written_bytes cs).
Proof.
  revert n. induction cs as [|c cs IH]; intros n.
  - cbn. f_equal. lia.
  - destruct c as [code|b].
    + change (bytes_after n (CallWriteHeader code :: cs)) with (bytes_after n cs).
      rewrite IH. reflexivity.
    + change (bytes_after n (CallWrite b :: cs))
        with (bytes_after (wrap_int (n + len b)) cs).
      rewrite IH, wrap_int_add_l. f_equal.
      unfold written_bytes at 2. cbn. rewrite written_bytes_from. lia.
Qed.

Lemma wrap_int_idem (a : Z) : wrap_int (wrap_int a) = wrap_int a.
Proof.
  replace (wrap_int a) with (wrap_int a + 0) at 1 by lia.
  rewrite wrap_int_add_l. f_equal. lia.
Qed.

Lemma bytes_after_fresh (cs : list SinkCall) :
  bytes_after 0 cs = wrap_int (written_bytes cs).
Proof.
  assert (forall cs' n, wrap_int n = n -> wrap_int (bytes_after n cs') = bytes_after n cs')
    as Hfix.
  { induction cs' as [|c cs' IH]; intros n Hn; [exact Hn|].
    destruct c as [code|b]; cbn; apply IH; [exact Hn|apply wrap_int_idem]. }
  rewrite <- (Hfix cs 0 eq_refl), bytes_after_wrap. f_equal.
Qed.

(** Over the sink, a recorder's status and byte count follow from the calls
    that reached the sink since the recorder was made. *)
Lemma exec_recorder_tally (p : prog) (wr : responseRecorder Sink) (st : World) :
  let wr' := snd (fst (exec p (responseRecorder Sink) wr st)) in
  exists cs,
    sink_calls (ResponseWriter wr') = sink_calls (ResponseWriter wr) ++ cs
    /\ status wr' = recorded_status (status wr) cs
    /\ numBytes wr' = bytes_after (numBytes wr) cs.
Proof.
  revert wr st.
  induction p as [ | v | next IH | f next IH | c next IH | b next IH | A f next IH ];
    intros wr st; cbn.
  - exists []. rewrite app_nil_r. auto.
  - exists []. rewrite app_nil_r. auto.
  - exact (IH _ wr st).
  - exact (IH {| ResponseWriter := Header_update f (ResponseWriter wr);
                 status := status wr; numBytes := numBytes wr |} st).
  - destruct (IH {| ResponseWriter := WriteHeader c (ResponseWriter wr);
                    status := c; numBytes := numBytes wr |} st)
      as (cs & Hcalls & Hstatus & Hbytes).
    exists (CallWriteHeader c :: cs). cbn in *.
    rewrite Hcalls, Hstatus, Hbytes, <- app_assoc. auto.
  - set (wr1 := {| ResponseWriter := fst (Write b (ResponseWriter wr)); status := status wr;
                   numBytes := wrap_int (numBytes wr + len b) |}).
    destruct (IH (sink_reply (ResponseWriter wr) (sink_calls (ResponseWriter wr)) b) wr1 st)
      as (cs & Hcalls & Hstatus & Hbytes).
    exists (CallWrite b :: cs). subst wr1. cbn in *.
    rewrite Hcalls, Hstatus, Hbytes, <- app_assoc. auto.
  - destruct (f st) as [a st']. apply IH.
Qed.

(** A recorder around a recorder that starts with the same numbers ends with
    the same numbers. *)
Lemma exec_recorder_twice (p : prog) (W : Type) `{http_ResponseWriter W}
  (wr2 : responseRecorder (responseRecorder W)) (st : World) :
  status wr2 = status (ResponseWriter wr2) ->
  numBytes wr2 = numBytes (ResponseWriter wr2) ->
  let wr2' := snd (fst (exec p (responseRecorder (responseRecorder W)) wr2 st)) in
  status wr2' = status (ResponseWriter wr2')
  /\ numBytes wr2' = numBytes (ResponseWriter wr2').
Proof.
  revert wr2 st.
  induction p as [ | v | next IH | f next IH | c next IH | b next IH | A f next IH ];
    intros wr2 st Hs Hn; cbn.
  - auto.
  - auto.
  - exact (IH _ wr2 st Hs Hn).
  - exact (IH {| ResponseWriter := Header_update f (ResponseWriter wr2);
                 status := status wr2; numBytes := numBytes wr2 |} st Hs Hn).
  - exact (IH {| ResponseWriter := WriteHeader c (ResponseWriter wr2);
                 status := c; numBytes := numBytes wr2 |} st eq_refl Hn).
  - destruct (Write b (ResponseWriter (ResponseWriter wr2))) as [w' ret] eqn:Hw.
    apply (IH ret); cbn; [exact Hs|]. rewrite Hn. reflexivity.
  - destruct (f st) as [a st']. apply IH; assumption.
Qed.

Lemma calls_since_app (s0 s1 : Sink) (cs : list SinkCall) :
  sink_calls s1 = sink_calls s0 ++ cs -> calls_since s0 s1 = cs.
Proof. unfold calls_since. intros ->. apply drop_app_length. Qed.

(** X1: a handler that runs on a [responseRecorder] ends the same way, leaves
    the wrapped writer in the same state and the world in the same state as
    when it runs on the wrapped writer itself: the recorder forwards every
    call and every result unchanged. *)
Theorem responseRecorder_transparent (p : prog) (W : Type) `{http_ResponseWriter W}
  (w : W) (status0 numBytes0 : Z) (st : World) :
  let behind := exec p (responseRecorder W)
                  {| ResponseWriter := w; status := status0; numBytes := numBytes0 |} st in
  exec p W w st = (fst (fst behind), ResponseWriter (snd (fst behind)), snd behind).
Proof.
  exact (exec_recorder p W
           {| ResponseWriter := w; status := status0; numBytes := numBytes0 |} st).
Qed.

(** X2: after a handler has run on a fresh recorder over a sink, the recorder
    holds the code of the last [WriteHeader] the sink received from it (0 when
    there was none, even if bytes were written) and the total length of the
    byte strings passed to [Write], as a 64-bit [int]. *)
Theorem responseRecorder_counts (p : prog) (s : Sink) (st : World) :
  let wr := snd (fst (exec p (responseRecorder Sink)
                        {| ResponseWriter := s; status := 0; numBytes := 0 |} st)) in
  status wr = recorded_status 0 (calls_since s (ResponseWriter wr))
  /\ numBytes wr = wrap_int (written_bytes (calls_since s (ResponseWriter wr))).
Proof.
  intros wr.
  destruct (exec_recorder_tally p {| ResponseWriter := s; status := 0; numBytes := 0 |} st)
    as (cs & Hcalls & Hstatus & Hbytes).
  fold wr in Hcalls, Hstatus, Hbytes. cbn in Hcalls, Hstatus, Hbytes.
  rewrite (calls_since_app s (ResponseWriter wr) cs Hcalls), Hstatus, Hbytes.
  split; [reflexivity|apply bytes_after_fresh].
Qed.

Section PipelineMore.
Context `{GoLib}.

(** The pipeline around a handler that returns. *)
Lemma pipeline_return (p : http_Request -> prog) (r : http_Request)
  (s s1 : Sink) (st st1 : World) :
  serve p Sink _ s r st = (Returned, s1, st1) ->
  exists cs,
    sink_calls s1 = sink_calls s ++ cs
    /\ route (serve p) Sink _ s r st
       = (Returned, s1,
          {| logs := logs st1
                     ++ [accessed_record r (recorded_status 0 cs) (bytes_after 0 cs)];
             sent := sent st1 |}).
Proof.
  intros Hrun. unfold serve in Hrun.
  set (fresh := {| ResponseWriter := s; status := 0; numBytes := 0 |}).
  set (fresh2 := {| ResponseWriter := fresh; status := 0; numBytes := 0 |}).
  pose proof (exec_recorder (p r) Sink fresh st) as Hsim1.
  pose proof (exec_recorder (p r) (responseRecorder Sink) fresh2 st) as Hsim2.
  pose proof (exec_recorder_twice (p r) Sink fresh2 st eq_refl eq_refl) as Htwice.
  pose proof (exec_recorder_tally (p r) fresh st) as Htally.
  cbn in Hsim1, Hsim2, Htwice, Htally. fold fresh in Hsim2, Htwice.
  rewrite Hsim2 in Hsim1, Htally. rewrite Hrun in Hsim1.
  unfold route, recovery, accesslog, serve. fold fresh. fold fresh2.
  destruct (exec (p r) (responseRecorder (responseRecorder Sink)) fresh2 st)
    as [[out wr2] st'].
  cbn in Hsim1, Htwice, Htally.
  injection Hsim1 as Hout Hs1 Hst1. subst out s1 st'.
  destruct Htally as (cs & Hcalls & Hstatus & Hbytes).
  destruct Htwice as [Hs Hn].
  exists cs. split; [exact Hcalls|].
  cbn. rewrite Hs, Hn, Hstatus, Hbytes. reflexivity.
Qed.

(** X3: when the handler returns, the pipeline changes nothing of what the
    handler did to the response and adds one record to the log: level info,
    message [accessed], the request's method, path, query and [X-Real-IP]
    header, the code of the handler's last [WriteHeader] as status (0 when
    the handler never called it) and the number of bytes the handler wrote. *)
Theorem route_return (p : http_Request -> prog) (r : http_Request)
  (s s1 : Sink) (st st1 : World) :
  serve p Sink _ s r st = (Returned, s1, st1) ->
  route (serve p) Sink _ s r st
  = (Returned, s1,
     {| logs := logs st1
                ++ [accessed_record r (recorded_status 0 (calls_since s s1))
                      (wrap_int (written_bytes (calls_since s s1)))];
        sent := sent st1 |}).
Proof.
  intros Hrun.
  destruct (pipeline_return p r s s1 st st1 Hrun) as (cs & Hcalls & ->).
  rewrite (calls_since_app s s1 cs Hcalls), bytes_after_fresh. reflexivity.
Qed.

(** The pipeline around a handler that panics. *)
Lemma pipeline_panic (p : http_Request -> prog) (W : Type) `{http_ResponseWriter W}
  (w w1 : W) (r : http_Request) (st st1 : World) (v : panicval) :
  serve p W _ w r st = (Panicked v, w1, st1) ->
  exists wr : responseRecorder W,
    ResponseWriter wr = w1
    /\ route (serve p) W _ w r st
       = if is_abort v then (Returned, w1, st1)
         else (Returned,
               if 0 <? status wr then w1
               else http_Error w1 (fmt_Sprint v) StatusInternalServerError,
               {| logs := logs st1 ++ [panic_record r v]; sent := sent st1 |}).
Proof.
  intros Hrun.
  set (fresh := {| ResponseWriter := w; status := 0; numBytes := 0 |}).
  pose proof (exec_recorder (p r) W fresh st) as Hsim.
  cbn in Hsim. fold (serve p W _ w r st) in Hsim. rewrite Hrun in Hsim.
  fold (serve p (responseRecorder W) _ fresh r st) in Hsim.
  destruct (serve p (responseRecorder W) _ fresh r st) as [[out wr] st'] eqn:Hrec.
  cbn in Hsim. injection Hsim as Hout Hw1 Hst1. subst out w1 st'.
  exists wr. split; [reflexivity|].
  unfold route, recovery. fold fresh.
  rewrite (accesslog_panic p (responseRecorder W) fresh wr r st st1 v Hrec).
  destruct (is_abort v); [reflexivity|].
  destruct (0 <? status wr); reflexivity.
Qed.

(** X4: a panic whose value is [http.ErrAbortHandler], or an error that wraps
    it, is swallowed: the pipeline returns, nothing is logged and nothing more
    reaches the writer than what the handler did before it panicked. *)
Theorem route_abort (p : http_Request -> prog) (W : Type) `{http_ResponseWriter W}
  (w w1 : W) (r : http_Request) (st st1 : World) (err : goerror) :
  serve p W _ w r st = (Panicked (PanicError err), w1, st1) ->
  errors_Is err ErrAbortHandler = true ->
  route (serve p) W _ w r st = (Returned, w1, st1).
Proof.
  intros Hrun Habort.
  destruct (pipeline_panic p W w w1 r st st1 _ Hrun) as (wr & _ & ->).
  cbn [is_abort]. rewrite Habort. reflexivity.
Qed.

(** X5: any other panic adds exactly one record to what the handler logged:
    level error, message [panic!], the panic value, the stack, and the
    request's method, path, query and [RemoteAddr] (not the [X-Real-IP]
    header the access log uses); requests sent upstream are untouched. *)
Theorem route_panic_record (p : http_Request -> prog) (W : Type) `{http_ResponseWriter W}
  (w w1 : W) (r : http_Request) (st st1 : World) (v : panicval) :
  serve p W _ w r st = (Panicked v, w1, st1) ->
  is_abort v = false ->
  snd (route (serve p) W _ w r st)
  = {| logs := logs st1 ++ [panic_record r v]; sent := sent st1 |}.
Proof.
  intros Hrun Habort.
  destruct (pipeline_panic p W w w1 r st st1 v Hrun) as (wr & _ & ->).
  rewrite Habort. reflexivity.
Qed.

End PipelineMore.

(** ** Headers *)

Lemma client_Header_Get (p : Pangolin) :
  Header_Get (client_Header p) "Authorization" = "Bearer " +:+ token p
  /\ Header_Get (client_Header p) "Content-Type" = "application/json".
Proof.
  unfold client_Header, Header_Get, Header_Add.
  change (CanonicalHeaderKey "Authorization") with "Authorization".
  change (CanonicalHeaderKey "Content-Type") with "Content-Type".
  split.
  - rewrite lookup_insert_ne by discriminate.
    rewrite lookup_insert_eq, lookup_empty. reflexivity.
  - rewrite lookup_insert_eq, lookup_insert_ne by discriminate.
    rewrite lookup_empty. reflexivity.
Qed.

(** What [http.Error] leaves in a sink. *)
Lemma http_Error_sink (s : Sink) (text : string) (code : Z) :
  http_Error s text code
  = {| sink_Header :=
         Header_Set "X-Content-Type-Options" "nosniff"
           (Header_Set "Content-Type" "text/plain; charset=utf-8"
              (Header_Del "Content-Length" (sink_Header s)));
       sink_calls := sink_calls s ++ [CallWriteHeader code; CallWrite (text +:+ newline)];
       sink_reply := sink_reply s |}.
Proof. unfold http_Error. cbn. rewrite <- app_assoc. reflexivity. Qed.

Lemma error_headers (h : http_Header) :
  let h' := Header_Set "X-Content-Type-Options" "nosniff"
              (Header_Set "Content-Type" "text/plain; charset=utf-8"
                 (Header_Del "Content-Length" h)) in
  Header_Get h' "Content-Type" = "text/plain; charset=utf-8"
  /\ Header_Get h' "X-Content-Type-Options" = "nosniff"
  /\ Header_Get h' "Content-Length" = EmptyString.
Proof.
  unfold Header_Get, Header_Set, Header_Del.
  change (CanonicalHeaderKey "X-Content-Type-Options") with "X-Content-Type-Options".
  change (CanonicalHeaderKey "Content-Type") with "Content-Type".
  change (CanonicalHeaderKey "Content-Length") with "Content-Length".
  cbn zeta. repeat split.
  - rewrite lookup_insert_ne by discriminate. rewrite lookup_insert_eq. reflexivity.
  - rewrite lookup_insert_eq. reflexivity.
  - rewrite !lookup_insert_ne by discriminate. rewrite lookup_delete_eq. reflexivity.
Qed.

(** ** The client *)

Section ClientMore.
Context `{GoLib} `{Upstream}.

Lemma GetResources_bad_url (p : Pangolin) (st : World) (err : goerror) :
  url_error (creq_URL (GetResources_request p)) = Some err ->
  GetResources p st = (inr err, st).
Proof.
  intros Hurl. unfold GetResources, M_bind, M_lift, http_NewRequest.
  cbn in Hurl. rewrite Hurl. reflexivity.
Qed.

(** X6: each client call hands exactly one request to the HTTP client when
    its URL is accepted, whatever the answer is (no retry), and none when the
    URL is refused, in which case the URL's error is the result; neither call
    logs anything. *)
Theorem client_one_request_per_call
  (p : Pangolin) (rule : PangolinRule) (resourceID : Z) (st : World) :
  (url_error (creq_URL (GetResources_request p)) = None ->
     snd (GetResources p st)
     = {| logs := logs st; sent := sent st ++ [GetResources_request p] |})
  /\ (forall err, url_error (creq_URL (GetResources_request p)) = Some err ->
        GetResources p st = (inr err, st))
  /\ (url_error (creq_URL (CreateRule_request p rule resourceID)) = None ->
        snd (CreateRule p rule resourceID st)
        = {| logs := logs st;
             sent := sent st ++ [CreateRule_request p rule resourceID] |})
  /\ (forall err, url_error (creq_URL (CreateRule_request p rule resourceID)) = Some err ->
        CreateRule p rule resourceID st = (inr err, st)).
Proof.
  split; [|split; [|split]].
  - intros Hurl. rewrite (GetResources_run p st Hurl). reflexivity.
  - intros err Hurl. apply GetResources_bad_url, Hurl.
  - intros Hurl. rewrite (CreateRule_run p rule resourceID st Hurl). reflexivity.
  - intros err Hurl. apply CreateRule_bad_url, Hurl.
Qed.

(** X7: the request of [GetResources] is a [GET] without body to
    [host/v1/org/<org>/resources], the request of [CreateRule] a [PUT] to
    [host/v1/resource/<id>/rule] with the marshalled rule as body; both carry
    [Authorization: Bearer <token>] and [Content-Type: application/json]. *)
Theorem client_request_shape
  (p : Pangolin) (rule : PangolinRule) (resourceID : Z) (st : World) :
  url_error (host p +:+ "/v1" +:+ "/org/" +:+ org p +:+ "/resources") = None ->
  url_error (host p +:+ "/v1" +:+ "/resource/" +:+ Itoa resourceID +:+ "/rule") = None ->
  (exists req,
     sent (snd (GetResources p st)) = sent st ++ [req]
     /\ creq_Method req = "GET"
     /\ creq_URL req = host p +:+ "/v1" +:+ "/org/" +:+ org p +:+ "/resources"
     /\ creq_Body req = None
     /\ Header_Get (creq_Header req) "Authorization" = "Bearer " +:+ token p
     /\ Header_Get (creq_Header req) "Content-Type" = "application/json")
  /\ (exists req,
        sent (snd (CreateRule p rule resourceID st)) = sent st ++ [req]
        /\ creq_Method req = "PUT"
        /\ creq_URL req = host p +:+ "/v1" +:+ "/resource/" +:+ Itoa resourceID +:+ "/rule"
        /\ creq_Body req = Some (json_text (PangolinRule_json rule))
        /\ Header_Get (creq_Header req) "Authorization" = "Bearer " +:+ token p
        /\ Header_Get (creq_Header req) "Content-Type" = "application/json").
Proof.
  intros Hget Hput.
  assert (forall a b c : string, (a +:+ b) +:+ c = a +:+ b +:+ c) as Hassoc
    by (intros; apply append_assoc).
  destruct (client_Header_Get p) as [Hauth Htype].
  split.
  - exists (GetResources_request p).
    rewrite (GetResources_run p st) by (cbn; unfold baseURL; rewrite Hassoc; exact Hget).
    cbn. unfold baseURL. rewrite Hassoc. auto 10.
  - exists (CreateRule_request p rule resourceID).
    rewrite (CreateRule_run p rule resourceID st)
      by (cbn; unfold baseURL; rewrite Hassoc; exact Hput).
    cbn. unfold baseURL. rewrite Hassoc. auto 10.
Qed.

(** X8: how [GetResources] fails once its URL is accepted: an error of the
    round trip is returned as it is; with status 200, an error while the
    body is read is returned as it is, and a body that is no JSON value gives
    the decoder's error.  A body that decodes gives the envelope's data,
    whatever the envelope's [success], [error], [message] and [status] say. *)
Theorem GetResources_outcomes (p : Pangolin) (st : World) :
  url_error (creq_URL (GetResources_request p)) = None ->
  (forall err, http_Client_Do (GetResources_request p) = inr err ->
     fst (GetResources p st) = inr err)
  /\ (forall res err,
        http_Client_Do (GetResources_request p) = inl res -> StatusCode res = 200 ->
        snd (res_Body res) = Some err ->
        fst (GetResources p st) = inr err)
  /\ (forall res body,
        http_Client_Do (GetResources_request p) = inl res -> StatusCode res = 200 ->
        res_Body res = (body, None) -> json_parse body = None ->
        fst (GetResources p st) = inr (json_error body))
  /\ (forall res body resp,
        http_Client_Do (GetResources_request p) = inl res -> StatusCode res = 200 ->
        res_Body res = (body, None) ->
        json_Unmarshal (decode_PangolinResponse decode_PangolinResources) body
          (zero_PangolinResponse zero_PangolinResources) = inl resp ->
        fst (GetResources p st) = inl (resp_Data resp)).
Proof.
  intros Hurl. rewrite (GetResources_run p st Hurl). cbn [fst].
  split; [|split; [|split]].
  - intros err ->. reflexivity.
  - intros res err -> -> Hbody. unfold io_ReadAll. rewrite Hbody. reflexivity.
  - intros res body -> -> Hbody Hparse. unfold io_ReadAll, json_Unmarshal.
    rewrite Hbody. cbn [fst snd]. rewrite Hparse. reflexivity.
  - intros res body resp -> -> Hbody Hdec. unfold io_ReadAll.
    rewrite Hbody. cbn [fst snd negb Z.eqb Pos.eqb]. rewrite Hdec. reflexivity.
Qed.

(** X9: how [CreateRule] fails once its URL is accepted: an error of the
    round trip is returned as it is, whatever the status an error while the
    body is read is returned as it is, and a body that is no JSON value or
    whose members do not fit the envelope gives the decoder's error; in none
    of these cases is the envelope's message used. *)
Theorem CreateRule_outcomes
  (p : Pangolin) (rule : PangolinRule) (resourceID : Z) (st : World) :
  url_error (creq_URL (CreateRule_request p rule resourceID)) = None ->
  (forall err, http_Client_Do (CreateRule_request p rule resourceID) = inr err ->
     fst (CreateRule p rule resourceID st) = inr err)
  /\ (forall res err,
        http_Client_Do (CreateRule_request p rule resourceID) = inl res ->
        snd (res_Body res) = Some err ->
        fst (CreateRule p rule resourceID st) = inr err)
  /\ (forall res body,
        http_Client_Do (CreateRule_request p rule resourceID) = inl res ->
        res_Body res = (body, None) ->
        (json_parse body = None
         \/ exists v, json_parse body = Some v
                      /\ decode_PangolinResponse decode_PangolinRule v
                           (zero_PangolinResponse zero_PangolinRule) = None) ->
        fst (CreateRule p rule resourceID st) = inr (json_error body)).
Proof.
  intros Hurl. rewrite (CreateRule_run p rule resourceID st Hurl). cbn [fst].
  split; [|split].
  - intros err ->. reflexivity.
  - intros res err -> Hbody. unfold io_ReadAll. rewrite Hbody. reflexivity.
  - intros res body -> Hbody Hbad. unfold io_ReadAll, json_Unmarshal.
    rewrite Hbody. cbn [fst snd].
    destruct Hbad as [-> | (v & -> & ->)]; reflexivity.
Qed.

End ClientMore.

(** ** The handlers *)

Lemma Header_Get_Set (key value : string) (h : http_Header) :
  Header_Get (Header_Set key value h) key = value.
Proof. unfold Header_Get, Header_Set. rewrite lookup_insert_eq. reflexivity. Qed.

(** The pipeline treats handlers that behave alike alike. *)
Lemma route_ext `{GoLib} (h1 h2 : http_Handler) :
  (forall W (HW : http_ResponseWriter W) w r st, h1 W HW w r st = h2 W HW w r st) ->
  forall W (HW : http_ResponseWriter W) w r st,
    route h1 W HW w r st = route h2 W HW w r st.
Proof.
  intros Hext W HW w r st. unfold route, recovery, accesslog.
  rewrite Hext. reflexivity.
Qed.

Section HandlersMore.
Context `{GoLib} `{Upstream}.

(** [handleRegisterIP] over a sink, for a numeric id. *)
Lemma handleRegisterIP_run (pangolinClient : Pangolin) (r : http_Request)
  (s : Sink) (st : World) (resourceID : Z) :
  Atoi (PathValue r "id") = inl resourceID ->
  handleRegisterIP pangolinClient Sink _ s r st
  = (Returned,
     match fst (CreateRule pangolinClient (register_rule r) resourceID st) with
     | inl _ =>
         {| sink_Header := sink_Header s;
            sink_calls := sink_calls s ++ [CallWrite ("Success" +:+ newline)];
            sink_reply := sink_reply s |}
     | inr err => http_Error s (Error err) StatusInternalServerError
     end,
     snd (CreateRule pangolinClient (register_rule r) resourceID st)).
Proof.
  intros Hid. unfold handleRegisterIP. rewrite Hid. fold (register_rule r).
  destruct (CreateRule pangolinClient (register_rule r) resourceID st) as [[rule|err] st'];
    reflexivity.
Qed.

Lemma CreateRule_keeps_logs (p : Pangolin) (rule : PangolinRule) (resourceID : Z)
  (st : World) :
  logs (snd (CreateRule p rule resourceID st)) = logs st.
Proof.
  destruct (url_error (creq_URL (CreateRule_request p rule resourceID))) as [err|] eqn:Hurl.
  - rewrite (CreateRule_bad_url p rule resourceID st err Hurl). reflexivity.
  - rewrite (CreateRule_run p rule resourceID st Hurl). reflexivity.
Qed.

(** X10: for a numeric id, [handleRegisterIP] answers from the result of
    [CreateRule] alone.  On success the writer gets one [Write] of
    [Success] and a line feed, no [WriteHeader] and no header change; on any
    error it gets [WriteHeader(500)] and one [Write] of the error's text and
    a line feed, with the content type set to plain text. *)
Theorem handleRegisterIP_responses (pangolinClient : Pangolin) (r : http_Request)
  (s : Sink) (st : World) (resourceID : Z) :
  Atoi (PathValue r "id") = inl resourceID ->
  let res := CreateRule pangolinClient (register_rule r) resourceID st in
  let s' := snd (fst (handleRegisterIP pangolinClient Sink _ s r st)) in
  (forall rule, fst res = inl rule ->
     sink_calls s' = sink_calls s ++ [CallWrite ("Success" +:+ newline)]
     /\ sink_Header s' = sink_Header s)
  /\ (forall err, fst res = inr err ->
        sink_calls s'
        = sink_calls s ++ [CallWriteHeader 500; CallWrite (Error err +:+ newline)]
        /\ Header_Get (sink_Header s') "Content-Type" = "text/plain; charset=utf-8"
        /\ Header_Get (sink_Header s') "X-Content-Type-Options" = "nosniff").
Proof.
  intros Hid res s'. unfold s'.
  rewrite (handleRegisterIP_run pangolinClient r s st resourceID Hid). fold res.
  cbn [fst snd]. split.
  - intros rule ->. split; reflexivity.
  - intros err ->. rewrite http_Error_sink. cbn [sink_calls sink_Header].
    destruct (error_headers (sink_Header s)) as (Htype & Hsniff & _). auto.
Qed.

(** X11: when the id of the path is no number (or is missing),
    [handleRegisterIP] sends nothing upstream and leaves the world as it is;
    the writer gets [WriteHeader(500)] and the text of the [strconv.Atoi]
    error, which names the id. *)
Theorem handleRegisterIP_bad_id (pangolinClient : Pangolin) (r : http_Request)
  (s : Sink) (st : World) (e : goerror) :
  ParseInt (PathValue r "id") = inr e ->
  snd (handleRegisterIP pangolinClient Sink _ s r st) = st
  /\ sink_calls (snd (fst (handleRegisterIP pangolinClient Sink _ s r st)))
     = sink_calls s
       ++ [CallWriteHeader 500;
           CallWrite (("strconv.Atoi: parsing " +:+ strconv_Quote (PathValue r "id")
                       +:+ ": " +:+ Error e) +:+ newline)].
Proof.
  intros Hid. unfold handleRegisterIP, Atoi. rewrite Hid. cbn [fst snd].
  split; [reflexivity|]. rewrite http_Error_sink. reflexivity.
Qed.

(** X12: the access log of a registration.  Behind the pipeline, a request
    with a numeric id is logged once; a successful registration is logged
    with status 0, as the handler never calls [WriteHeader], and 8 bytes; a
    failed one with status 500 and the length of the error text plus one. *)
Theorem route_handleRegisterIP_log (pangolinClient : Pangolin) (r : http_Request)
  (s : Sink) (st : World) (resourceID : Z) :
  Atoi (PathValue r "id") = inl resourceID ->
  logs (snd (route (handleRegisterIP pangolinClient) Sink _ s r st))
  = logs st
    ++ [match fst (CreateRule pangolinClient (register_rule r) resourceID st) with
        | inl _ => accessed_record r 0 8
        | inr err => accessed_record r 500 (wrap_int (len (Error err +:+ newline)))
        end].
Proof.
  intros Hid.
  rewrite (route_ext _ (serve (handleRegisterIP_calls pangolinClient))
             (handleRegisterIP_serve pangolinClient)).
  pose proof (handleRegisterIP_run pangolinClient r s st resourceID Hid) as Hrun.
  rewrite handleRegisterIP_serve in Hrun.
  destruct (pipeline_return _ r s _ st _ Hrun) as (cs & Hcalls & ->).
  cbn [snd logs]. rewrite CreateRule_keeps_logs. f_equal. f_equal.
  destruct (fst (CreateRule pangolinClient (register_rule r) resourceID st)) as [rule|err].
  - cbn in Hcalls. apply app_inv_head in Hcalls. subst cs. reflexivity.
  - rewrite http_Error_sink in Hcalls. cbn in Hcalls.
    apply app_inv_head in Hcalls. subst cs.
    rewrite bytes_after_fresh. reflexivity.
Qed.

End HandlersMore.

Section HealthAndHome.
Context `{GoLib} `{Upstream} `{Template}.

(** X13: [handleGetHealth] writes status 200 and then, in one [Write], the
    object [{"Version":...,"Uptime":...}] and a line feed, with content type
    [application/json].  When that [Write] fails, the handler goes on to
    [http.Error]: a second [WriteHeader], with 500, and the wrapped error's
    text reach the writer although the status 200 was already written.  The
    handler never touches the world. *)
Theorem handleGetHealth_responses (version uptime : string) (r : http_Request)
  (s : Sink) (st : World) :
  let body := String.concat EmptyString
                [dq "{'Version':"; encode_string version;
                 dq ",'Uptime':"; encode_string uptime; "}"; newline] in
  let ret := sink_reply s (sink_calls s ++ [CallWriteHeader 200]) body in
  let out := handleGetHealth version uptime Sink _ s r st in
  fst (fst out) = Returned /\ snd out = st
  /\ (snd ret = None ->
      sink_calls (snd (fst out)) = sink_calls s ++ [CallWriteHeader 200; CallWrite body]
      /\ Header_Get (sink_Header (snd (fst out))) "Content-Type" = "application/json")
  /\ (forall err, snd ret = Some err ->
        sink_calls (snd (fst out))
        = sink_calls s
          ++ [CallWriteHeader 200; CallWrite body; CallWriteHeader 500;
              CallWrite (("encode json: " +:+ Error err) +:+ newline)]
        /\ Header_Get (sink_Header (snd (fst out))) "Content-Type"
           = "text/plain; charset=utf-8").
Proof.
  intros body ret out.
  assert (json_text (responseBody_json {| Version := version; Uptime := uptime |})
          +:+ newline = body) as Hbody.
  { unfold body, responseBody_json, json_text.
    cbn [map fst snd join_comma fold_left Version Uptime].
    rewrite !append_assoc. reflexivity. }
  unfold out, handleGetHealth, encode. cbn [Write WriteHeader Header_update Sink_ResponseWriter
    sink_calls sink_Header sink_reply].
  rewrite Hbody. unfold StatusOK, StatusInternalServerError. fold ret.
  destruct (snd ret) as [err|] eqn:Hret; cbn [fmap option_fmap option_map fst snd].
  - split; [reflexivity|]. split; [reflexivity|]. split; [discriminate|].
    intros err' [= <-]. rewrite http_Error_sink. cbn [sink_calls sink_Header].
    rewrite <- !app_assoc. split; [reflexivity|].
    apply (error_headers _).
  - split; [reflexivity|]. split; [reflexivity|]. split; [|discriminate].
    intros _. cbn [sink_calls sink_Header]. rewrite <- !app_assoc.
    split; [reflexivity|]. apply Header_Get_Set.
Qed.

(** X14: [handleHomePage] answers any path other than [/] with 404 and the
    text [404 page not found] without calling upstream or the template; for
    [/], when [GetResources] fails, it answers 500 with the error's text and
    the page is not rendered. *)
Theorem handleHomePage_early_exits (pangolinClient : Pangolin) (r : http_Request)
  (s : Sink) (st : World) :
  let out := handleHomePage pangolinClient Sink _ s r st in
  (URL_Path r <> "/" ->
     snd out = st
     /\ sink_calls (snd (fst out))
        = sink_calls s
          ++ [CallWriteHeader 404; CallWrite ("404 page not found" +:+ newline)])
  /\ (URL_Path r = "/" ->
      forall err, fst (GetResources pangolinClient st) = inr err ->
        snd out = snd (GetResources pangolinClient st)
        /\ sink_calls (snd (fst out))
           = sink_calls s ++ [CallWriteHeader 500; CallWrite (Error err +:+ newline)]
        /\ Header_Get (sink_Header (snd (fst out))) "Content-Type"
           = "text/plain; charset=utf-8").
Proof.
  intros out. unfold out, handleHomePage. split.
  - intros Hpath. apply String.eqb_neq in Hpath. rewrite Hpath. cbn [negb fst snd].
    split; [reflexivity|]. unfold http_NotFound. rewrite http_Error_sink. reflexivity.
  - intros Hpath err Hget. apply String.eqb_eq in Hpath. rewrite Hpath. cbn [negb].
    destruct (GetResources pangolinClient st) as [[resources|err'] st'].
    + discriminate.
    + cbn in Hget. injection Hget as ->. cbn [fst snd].
      rewrite http_Error_sink. cbn [sink_calls sink_Header].
      split; [reflexivity|]. split; [reflexivity|]. apply (error_headers _).
Qed.

End HealthAndHome.

(** ** The lifecycle *)



Section LifecycleMore.
Context `{GoLib}.

(** X15: [run] fails fast on its configuration.  Without [PORT], with a
    [PORT] that is no integer, or without one of the three [PANGOLIN_]
    variables in the process environment, it returns the matching error
    whatever happens afterwards, and logs nothing: the server is never
    started.  [PORT] is read through the [lookupEnv] argument; the other three
    are read from the process environment even when [lookupEnv] has them. *)
Theorem run_configuration_errors
  (lookupEnv os_LookupEnv : string -> option string) (version : string)
  (events : list Trigger) (shutdown : option goerror) :
  let result := run lookupEnv os_LookupEnv version events shutdown in
  (lookupEnv "PORT" = None ->
     result = (Returns (Some (errorString "failed to find env PORT")), []))
  /\ (forall portEnv e, lookupEnv "PORT" = Some portEnv -> ParseInt portEnv = inr e ->
        result = (Returns (Some (NumError "Atoi" portEnv e)), []))
  /\ (forall portEnv port, lookupEnv "PORT" = Some portEnv -> ParseInt portEnv = inl port ->
        (os_LookupEnv "PANGOLIN_TOKEN" = None ->
           result = (Returns (Some (errorString "failed to find env PANGOLIN_TOKEN")), []))
        /\ (os_LookupEnv "PANGOLIN_TOKEN" <> None -> os_LookupEnv "PANGOLIN_HOST" = None ->
              result = (Returns (Some (errorString "failed to find env PANGOLIN_HOST")), []))
        /\ (os_LookupEnv "PANGOLIN_TOKEN" <> None -> os_LookupEnv "PANGOLIN_HOST" <> None ->
              os_LookupEnv "PANGOLIN_ORG" = None ->
              result = (Returns (Some (errorString "failed to find env PANGOLIN_ORG")), []))).
Proof.
  intros result. unfold result, run, Atoi. split; [|split].
  - intros ->. reflexivity.
  - intros portEnv e -> ->. reflexivity.
  - intros portEnv port -> ->. split; [|split].
    + intros ->. reflexivity.
    + intros Htoken ->. destruct (os_LookupEnv "PANGOLIN_TOKEN"); [reflexivity|].
      contradiction.
    + intros Htoken Hhost ->. destruct (os_LookupEnv "PANGOLIN_TOKEN"); [|contradiction].
      destruct (os_LookupEnv "PANGOLIN_HOST"); [reflexivity|contradiction].
Qed.


End LifecycleMore.

(** ** Rules there and back *)












(** ** Concrete runs of the further properties *)

(** X3 at a handler that answers 201 with five bytes. *)
Lemma route_return_witness :
  logs (snd (@route example_lib (serve created_handler) Sink _ new_sink put_request
               new_world))
  = [accessed_record put_request 201 5].
Proof.
  erewrite (@route_return example_lib created_handler put_request new_sink _ new_world _
              eq_refl).
  reflexivity.
Defined.

(** X4 at a handler that writes and then panics with a wrapped abort. *)
Lemma route_abort_witness :
  fst (fst (@route example_lib (serve aborting_handler) Sink _ new_sink put_request
              new_world)) = Returned
  /\ sink_calls (snd (fst (@route example_lib (serve aborting_handler) Sink _ new_sink
                             put_request new_world))) = [CallWrite "partial"]
  /\ snd (@route example_lib (serve aborting_handler) Sink _ new_sink put_request
            new_world) = new_world.
Proof.
  erewrite (@route_abort example_lib aborting_handler Sink Sink_ResponseWriter new_sink _
              put_request
              new_world _ _ eq_refl eq_refl).
  repeat split.
Defined.

(** X5 at a handler that writes and then panics with a string. *)
Lemma route_panic_record_witness :
  snd (@route example_lib (serve panic_after_write) Sink _ new_sink put_request new_world)
  = {| logs := [panic_record put_request (PanicString "boom")]; sent := [] |}.
Proof.
  erewrite (@route_panic_record example_lib panic_after_write Sink Sink_ResponseWriter
              new_sink _ put_request
              new_world _ _ eq_refl eq_refl).
  reflexivity.
Defined.

(** X7 at the example client. *)
Lemma client_request_shape_witness :
  exists req,
    sent (snd (@GetResources example_lib
                 (answering {| StatusCode := 200; Status := "200 OK";
                               res_Body := (svc_body, None) |})
                 example_client new_world)) = [req]
    /\ creq_URL req = "https://pangolin.example.com/v1/org/home/resources"
    /\ Header_Get (creq_Header req) "Authorization" = "Bearer secret".
Proof.
  destruct (@client_request_shape example_lib
              (answering {| StatusCode := 200; Status := "200 OK";
                            res_Body := (svc_body, None) |})
              example_client (register_rule put_request) 42 new_world eq_refl eq_refl)
    as [(req & Hsent & _ & Hurl & _ & Hauth & _) _].
  exists req. auto.
Defined.

(** X8 at an upstream that refuses connections. *)
Lemma GetResources_outcomes_witness :
  fst (@GetResources example_lib (unreachable (foreignError "connection refused"))
         example_client new_world)
  = inr (foreignError "connection refused").
Proof.
  destruct (@GetResources_outcomes example_lib
              (unreachable (foreignError "connection refused"))
              example_client new_world eq_refl) as (Hdo & _).
  apply Hdo. reflexivity.
Defined.

(** X9 at an answer that is no JSON. *)
Lemma CreateRule_outcomes_witness :
  fst (@CreateRule example_lib
         (answering {| StatusCode := 502; Status := "502 Bad Gateway";
                       res_Body := ("<html>Bad Gateway</html>", None) |})
         example_client (register_rule put_request) 42 new_world)
  = inr (foreignError "invalid JSON").
Proof.
  destruct (@CreateRule_outcomes example_lib
              (answering {| StatusCode := 502; Status := "502 Bad Gateway";
                            res_Body := ("<html>Bad Gateway</html>", None) |})
              example_client (register_rule put_request) 42 new_world eq_refl)
    as (_ & _ & Hjson).
  apply (Hjson _ "<html>Bad Gateway</html>" eq_refl eq_refl). left. reflexivity.
Defined.

(** X10 at a registration that succeeds. *)
Lemma handleRegisterIP_responses_witness :
  sink_calls (snd (fst (@handleRegisterIP example_lib
                          (answering {| StatusCode := 200; Status := "200 OK";
                                        res_Body := ("{}", None) |})
                          example_client Sink _ new_sink put_request new_world)))
  = [CallWrite ("Success" +:+ newline)].
Proof.
  destruct (@handleRegisterIP_responses example_lib
              (answering {| StatusCode := 200; Status := "200 OK";
                            res_Body := ("{}", None) |})
              example_client put_request new_sink new_world 42 eq_refl)
    as (Hok & _).
  apply (Hok zero_PangolinRule eq_refl).
Defined.

(** X11 at the id [abc]. *)
Lemma handleRegisterIP_bad_id_witness :
  snd (@handleRegisterIP example_lib
         (answering {| StatusCode := 200; Status := "200 OK"; res_Body := ("{}", None) |})
         example_client Sink _ new_sink bad_id_request new_world) = new_world
  /\ sink_calls (snd (fst (@handleRegisterIP example_lib
                             (answering {| StatusCode := 200; Status := "200 OK";
                                           res_Body := ("{}", None) |})
                             example_client Sink _ new_sink bad_id_request new_world)))
     = [CallWriteHeader 500;
        CallWrite (dq "strconv.Atoi: parsing 'abc': invalid syntax" +:+ newline)].
Proof.
  exact (@handleRegisterIP_bad_id example_lib
           (answering {| StatusCode := 200; Status := "200 OK";
                         res_Body := ("{}", None) |})
           example_client bad_id_request new_sink new_world ErrSyntax eq_refl).
Defined.

(** X12 at a registration that succeeds. *)
Lemma route_handleRegisterIP_log_witness :
  logs (snd (@route example_lib
               (@handleRegisterIP example_lib
                  (answering {| StatusCode := 200; Status := "200 OK";
                                res_Body := ("{}", None) |})
                  example_client)
               Sink _ new_sink put_request new_world))
  = [accessed_record put_request 0 8].
Proof.
  exact (@route_handleRegisterIP_log example_lib
           (answering {| StatusCode := 200; Status := "200 OK";
                         res_Body := ("{}", None) |})
           example_client put_request new_sink new_world 42 eq_refl).
Defined.


